(** * fftranscode: the argument builder and the process supervisor

    A shallow embedding of [fftranscode.py].  The class [Fftranscode] becomes
    a record, its methods become computations in a small monad that threads
    the object, records the calls made to the outside (logger, [print],
    [open], [subprocess.Popen], [time.sleep], [poll], [kill], [wait]) and
    propagates Python exceptions.  What the outside answers (the output of
    [ffmpeg -version], whether a process can be started, what each poll of the
    child reports) is collected in a record [World]. *)

From Stdlib Require Import ZArith NArith List Bool Lia.
From Stdlib.Strings Require Import String Ascii Byte.
Import ListNotations.

Local Open Scope Z_scope.

(** ** Text and bytes *)

(** A Python [str] is a sequence of Unicode code points, a [bytes] object a
    sequence of bytes. *)
Definition char := N.
Definition str := list char.
Definition bytes := list byte.

(** Literals of the source: ['...'] and [b'...'] (all of them are ASCII). *)
Definition py (s : string) : str := map N_of_ascii (list_ascii_of_string s).
Definition pyb (s : string) : bytes := list_byte_of_string s.

Fixpoint str_eqb (a b : str) : bool :=
  match a, b with
  | [], [] => true
  | x :: a', y :: b' => N.eqb x y && str_eqb a' b'
  | _, _ => false
  end.

Fixpoint bytes_prefixb (p l : bytes) : bool :=
  match p, l with
  | [], _ => true
  | x :: p', y :: l' => Byte.eqb x y && bytes_prefixb p' l'
  | _ :: _, [] => false
  end.

(** [s[:-4]]: everything but the last four characters, the empty string when
    there are no more than four. *)
Definition strip_last4 (s : str) : str :=
  firstn (List.length s - 4)%nat s.

(** [str.isspace] on one character: the code points CPython treats as
    whitespace. *)
Definition isspace (c : char) : bool :=
  (((9 <=? c) && (c <=? 13)) || ((28 <=? c) && (c <=? 32))
   || (c =? 133) || (c =? 160) || (c =? 5760)
   || ((8192 <=? c) && (c <=? 8202))
   || (c =? 8232) || (c =? 8233) || (c =? 8239) || (c =? 8287)
   || (c =? 12288))%N.

(** [s.split()] with no separator: the maximal runs of characters that are
    not whitespace, in order.  [cur] is the run being read. *)
Fixpoint split_from (cur : str) (s : str) : list str :=
  match s with
  | [] => match cur with [] => [] | _ :: _ => [cur] end
  | c :: s' =>
      if isspace c
      then match cur with
           | [] => split_from [] s'
           | _ :: _ => cur :: split_from [] s'
           end
      else split_from (cur ++ [c]) s'
  end.

Definition split (s : str) : list str := split_from [] s.

(** ** [bytes.decode('UTF-8')] *)

Definition cont (x : N) : bool := ((128 <=? x) && (x <=? 191))%N.

(** Strict UTF-8: shortest form only, no surrogates, nothing above U+10FFFF.
    [None] stands for [UnicodeDecodeError]. *)
Fixpoint utf8_decode (l : list N) : option str :=
  match l with
  | [] => Some []
  | b0 :: r0 =>
      if (b0 <? 128)%N then option_map (cons b0) (utf8_decode r0)
      else match r0 with
      | [] => None
      | b1 :: r1 =>
          if ((194 <=? b0) && (b0 <=? 223))%N then
            if cont b1
            then option_map (cons ((b0 - 192) * 64 + (b1 - 128))%N)
                            (utf8_decode r1)
            else None
          else match r1 with
          | [] => None
          | b2 :: r2 =>
              if ((224 <=? b0) && (b0 <=? 239))%N then
                if cont b1 && cont b2
                   && negb ((b0 =? 224) && (b1 <? 160))%N
                   && negb ((b0 =? 237) && (159 <? b1))%N
                then option_map
                       (cons ((b0 - 224) * 4096 + (b1 - 128) * 64
                              + (b2 - 128))%N)
                       (utf8_decode r2)
                else None
              else match r2 with
              | [] => None
              | b3 :: r3 =>
                  if ((240 <=? b0) && (b0 <=? 244))%N then
                    if cont b1 && cont b2 && cont b3
                       && negb ((b0 =? 240) && (b1 <? 144))%N
                       && negb ((b0 =? 244) && (143 <? b1))%N
                    then option_map
                           (cons ((b0 - 240) * 262144 + (b1 - 128) * 4096
                                  + (b2 - 128) * 64 + (b3 - 128))%N)
                           (utf8_decode r3)
                    else None
                  else None
              end
          end
      end
  end.

Definition decode_utf8 (b : bytes) : option str :=
  utf8_decode (map Byte.to_N b).

(** ** The regular expression [b'^ffmpeg version (.+) Copyright'] *)

Definition newline : byte := Byte.x0a.

(** The bytes a run of [.] can cover: up to the first newline. *)
Fixpoint first_line (l : bytes) : bytes :=
  match l with
  | [] => []
  | c :: l' => if Byte.eqb c newline then [] else c :: first_line l'
  end.

(** The last position of [l] at which [pat] starts. *)
Fixpoint last_start (pat l : bytes) : option nat :=
  match l with
  | [] => if bytes_prefixb pat [] then Some O else None
  | c :: l' =>
      match last_start pat l' with
      | Some i => Some (S i)
      | None => if bytes_prefixb pat l then Some O else None
      end
  end.

(** [re.compile(b'^ffmpeg version (.+) Copyright').match(buff)], reduced to
    [m.groups()[0]]: [match] anchors at the start of [buff]; [(.+)] is greedy,
    takes at least one byte and never a newline, so the group is the longest
    stretch of the first line that is followed by [b' Copyright']. *)
Definition version_group (buff : bytes) : option bytes :=
  let head := pyb "ffmpeg version " in
  if bytes_prefixb head buff then
    match first_line (skipn (List.length head) buff) with
    | [] => None
    | c :: rest =>
        match last_start (pyb " Copyright") rest with
        | Some i => Some (c :: firstn i rest)
        | None => None
        end
    end
  else None.

(** ** The object *)

(** A [subprocess.Popen] handle: the argument vector it was started with, its
    [returncode] ([None] until a poll or a wait has seen the child exit), the
    number of status queries made so far, and what reached the operating
    system through it: the termination signals really sent and the waits
    that really blocked. *)
Record Popen := mkPopen {
  popen_args : list str;
  returncode : option Z;
  polls : nat;
  signals_sent : nat;
  blocking_waits : nat
}.

(** The attributes of an [Fftranscode] instance.  [running] does not exist
    before [transcode] sets it. *)
Record Fftranscode := mkFftranscode {
  niced : bool;
  input_file : str;
  output_file : str;
  codec_lib : str;
  profile : str;
  level : str;
  preset : str;
  crf : str;
  tune : str;
  extra : str;
  subprocess_out : str;
  interactive : bool;
  num_waits : Z;
  max_waits : Z;
  wait_interval : Z;
  exit_code : option Z;
  sp : option Popen;
  ffmpeg_ver : option str;
  running : option bool
}.

Definition set_output_file (v : str) (o : Fftranscode) : Fftranscode :=
  mkFftranscode (niced o) (input_file o) v (codec_lib o) (profile o)
    (level o) (preset o) (crf o) (tune o) (extra o) (subprocess_out o)
    (interactive o) (num_waits o) (max_waits o) (wait_interval o)
    (exit_code o) (sp o) (ffmpeg_ver o) (running o).

Definition set_num_waits (v : Z) (o : Fftranscode) : Fftranscode :=
  mkFftranscode (niced o) (input_file o) (output_file o) (codec_lib o)
    (profile o) (level o) (preset o) (crf o) (tune o) (extra o)
    (subprocess_out o) (interactive o) v (max_waits o) (wait_interval o)
    (exit_code o) (sp o) (ffmpeg_ver o) (running o).

Definition set_exit_code (v : option Z) (o : Fftranscode) : Fftranscode :=
  mkFftranscode (niced o) (input_file o) (output_file o) (codec_lib o)
    (profile o) (level o) (preset o) (crf o) (tune o) (extra o)
    (subprocess_out o) (interactive o) (num_waits o) (max_waits o)
    (wait_interval o) v (sp o) (ffmpeg_ver o) (running o).

Definition set_sp (v : option Popen) (o : Fftranscode) : Fftranscode :=
  mkFftranscode (niced o) (input_file o) (output_file o) (codec_lib o)
    (profile o) (level o) (preset o) (crf o) (tune o) (extra o)
    (subprocess_out o) (interactive o) (num_waits o) (max_waits o)
    (wait_interval o) (exit_code o) v (ffmpeg_ver o) (running o).

Definition set_ffmpeg_ver (v : option str) (o : Fftranscode) : Fftranscode :=
  mkFftranscode (niced o) (input_file o) (output_file o) (codec_lib o)
    (profile o) (level o) (preset o) (crf o) (tune o) (extra o)
    (subprocess_out o) (interactive o) (num_waits o) (max_waits o)
    (wait_interval o) (exit_code o) (sp o) v (running o).

Definition set_running (v : option bool) (o : Fftranscode) : Fftranscode :=
  mkFftranscode (niced o) (input_file o) (output_file o) (codec_lib o)
    (profile o) (level o) (preset o) (crf o) (tune o) (extra o)
    (subprocess_out o) (interactive o) (num_waits o) (max_waits o)
    (wait_interval o) (exit_code o) (sp o) (ffmpeg_ver o) v.

(** ** Exceptions, events, the outside *)

(** Values handed to a format string.  Log lines and exception messages are
    kept as the format with its arguments; rendering them is the sink's. *)
Inductive pyval :=
| VStr (s : str)
| VInt (n : Z)
| VList (l : list str)
| VType (name : string).

Inductive exn :=
| UnboundLocalError (name : string)
| UnicodeDecodeError
| OSError (cls : string)
| AttributeError
| Exception (fmt : string) (args : list pyval)
| SystemExit (code : option Z).

(** [OSError] stands for the whole family; [cls] is the class raised
    ([FileNotFoundError], [PermissionError], ...), the one [type(e)] shows.
    [except Exception] catches everything here but [SystemExit]. *)
Definition is_Exception (e : exn) : bool :=
  match e with
  | SystemExit _ => false
  | _ => true
  end.

Definition type_name (e : exn) : string :=
  match e with
  | UnboundLocalError _ => "UnboundLocalError"
  | UnicodeDecodeError => "UnicodeDecodeError"
  | OSError cls => cls
  | AttributeError => "AttributeError"
  | Exception _ _ => "Exception"
  | SystemExit _ => "SystemExit"
  end.

Inductive loglevel := DEBUG | INFO | WARNING | ERROR.

(** Where a child's standard output goes. *)
Inductive stdout_target := Inherit | PIPE | ToFile (path : str).

(** The calls the program makes to the outside, in order. *)
Inductive event :=
| EvSetLevel (lvl : loglevel)
| EvLog (lvl : loglevel) (fmt : string) (args : list pyval)
| EvPrint (s : str)
| EvPrintObj (o : Fftranscode)
| EvPrintExn (e : exn)
| EvSignal
| EvOpen (path : str)
| EvPopen (args : list str) (out : stdout_target) (stderr_to_stdout : bool)
| EvSleep (secs : Z)
| EvPoll
| EvKill
| EvWait.

(** What the outside answers. *)
Record World := mkWorld {
  (** what [ffmpeg -version] writes to its standard output *)
  version_stdout : bytes;
  (** whether [open(path, 'w')] succeeds *)
  open_ok : str -> bool;
  (** whether [Popen(args, ...)] can start the process *)
  spawn_ok : list str -> bool;
  (** what the k-th status query of the transcoding child finds
      ([None]: still running) *)
  child_status : nat -> option Z;
  (** the status a blocking [wait] collects from a child not yet seen to
      exit *)
  reaped_status : Z;
  (** the class of the failure when [open(path, 'w')] fails *)
  open_error : str -> string;
  (** the class of the failure when [Popen(args, ...)] fails *)
  spawn_error : list str -> string
}.

(** ** The monad *)

Inductive result (A : Type) :=
| Ret (a : A)
| Raise (e : exn).
Arguments Ret {A} a.
Arguments Raise {A} e.

Record Out (A : Type) := mkOut {
  res : result A;
  obj : Fftranscode;
  trace : list event
}.
Arguments mkOut {A} _ _ _.
Arguments res {A} _.
Arguments obj {A} _.
Arguments trace {A} _.

Definition M (A : Type) := Fftranscode -> Out A.

Definition ret {A} (a : A) : M A := fun o => mkOut (Ret a) o [].

Definition bind {A B} (m : M A) (f : A -> M B) : M B :=
  fun o =>
    let r := m o in
    match res r with
    | Ret a =>
        let r' := f a (obj r) in
        mkOut (res r') (obj r') (trace r ++ trace r')
    | Raise e => mkOut (Raise e) (obj r) (trace r)
    end.

Definition raise {A} (e : exn) : M A := fun o => mkOut (Raise e) o [].
Definition emit (ev : event) : M unit := fun o => mkOut (Ret tt) o [ev].
Definition self : M Fftranscode := fun o => mkOut (Ret o) o [].
Definition update (f : Fftranscode -> Fftranscode) : M unit :=
  fun o => mkOut (Ret tt) (f o) [].

Declare Scope py_scope.
Delimit Scope py_scope with py.
Notation "x <- m ;; k" := (bind m (fun x => k))
  (at level 61, m at next level, right associativity) : py_scope.
Notation "m ;; k" := (bind m (fun _ => k))
  (at level 61, right associativity) : py_scope.
Local Open Scope py_scope.

(** The double-quote character of the two messages that quote a value. *)
Definition dquote : string := String (ascii_of_nat 34) EmptyString.

Definition log (lvl : loglevel) (fmt : string) (args : list pyval) : M unit :=
  emit (EvLog lvl fmt args).

(** ** The class [Fftranscode] *)

(** [Base.__init__] followed by [Fftranscode.__init__]. *)
Definition init (niced_ : bool)
    (input_file_ output_file_ codec_lib_ profile_ level_ preset_ crf_ tune_
       extra_ subprocess_out_ : str)
    (interactive_ : bool) : Fftranscode * list event :=
  (mkFftranscode niced_ input_file_ output_file_ codec_lib_ profile_ level_
     preset_ crf_ tune_ extra_ subprocess_out_ interactive_
     0 604800 1 None None None None,
   [EvLog DEBUG "Initialised logger." []]).

(** [subprocess.Popen(args, ...)]: the call is recorded; starting the process
    may fail. *)
Definition Popen_ (w : World) (args : list str) (out : stdout_target)
    (stderr_to_stdout : bool) : M Popen :=
  emit (EvPopen args out stderr_to_stdout);;
  if spawn_ok w args then ret (mkPopen args None O O O)
  else raise (OSError (spawn_error w args)).

(** [p.poll()]: once the exit has been seen the handle keeps its
    [returncode]; otherwise the child is asked once more. *)
Definition poll (w : World) (p : Popen) : Popen :=
  match returncode p with
  | Some _ => p
  | None =>
      mkPopen (popen_args p) (child_status w (S (polls p))) (S (polls p))
        (signals_sent p) (blocking_waits p)
  end.

(** [p.kill()], as [Popen.send_signal] does it: the child is asked for its
    status once more, and the signal is sent only to a child that has not
    been seen to exit. *)
Definition kill (w : World) (p : Popen) : Popen :=
  let p' := poll w p in
  match returncode p' with
  | Some _ => p'
  | None =>
      mkPopen (popen_args p') None (polls p') (S (signals_sent p'))
        (blocking_waits p')
  end.

(** [p.wait()]: returns at once for a child already seen to exit; otherwise
    blocks until the child is gone and stores its status. *)
Definition wait (w : World) (p : Popen) : Popen :=
  match returncode p with
  | Some _ => p
  | None =>
      mkPopen (popen_args p) (Some (reaped_status w)) (polls p)
        (signals_sent p) (S (blocking_waits p))
  end.

(** ["%s" % v] for an attribute that holds [None] or a [str]. *)
Definition percent_s (v : option str) : str :=
  match v with
  | Some s => s
  | None => py "None"
  end.

Section Methods.

Variable w : World.

Definition cancel_transcode (exit : bool) : M unit :=
  log WARNING "Cancelling transcode." [];;
  o <- self;;
  match sp o with
  | Some p =>
      log WARNING "Subprocess still executing, sending Kill signal." [];;
      emit EvKill;;
      update (set_sp (Some (kill w p)));;
      emit EvWait;;
      update (set_sp (Some (wait w (kill w p))))
  | None => ret tt
  end;;
  if exit then raise (SystemExit (Some 2)) else ret tt.

Definition handle_subprocess : M unit :=
  o <- self;;
  match sp o with
  | None =>
      log ERROR "There is no subprocess when there should be! Exiting." [];;
      cancel_transcode true
  | Some _ => ret tt
  end;;
  o <- self;;
  match sp o with
  | None => raise AttributeError
  | Some p => emit EvPoll;; update (set_sp (Some (poll w p)))
  end;;
  o <- self;;
  match sp o with
  | None => raise AttributeError
  | Some p =>
      match returncode p with
      | Some rc =>
          update (set_running (Some false));;
          log INFO
            ("Subprocess has exited. Exit code " ++ dquote ++ "%d" ++ dquote
             ++ ".")%string
            [VInt rc];;
          update (set_exit_code (Some rc))
      | None => ret tt
      end
  end.

Definition gen_output_file_name : M str :=
  o <- self;;
  let file_name :=
    strip_last4 (input_file o) ++ py " - ffmpeg:" ++ percent_s (ffmpeg_ver o)
    ++ py "_c:" ++ codec_lib o ++ py "_p:" ++ profile o
    ++ py "_l:" ++ level o ++ py "_r:" ++ preset o ++ py "_f:" ++ crf o in
  let file_name :=
    if negb (str_eqb (tune o) (py ""))
    then file_name ++ (py "_t:" ++ tune o)
    else file_name in
  let file_name := file_name ++ py ".mkv" in
  log INFO "Generated output file name: %s" [VStr file_name];;
  ret file_name.

Definition gen_transcode_args : M (list str) :=
  o <- self;;
  let args :=
    [ py "ffmpeg"; py "-hide_banner"; py "-n"; py "-i"; input_file o;
      py "-map"; py "0"; py "-codec:a"; py "copy"; py "-codec:s"; py "copy";
      py "-codec:v"; codec_lib o; py "-profile:v"; profile o;
      py "-level"; level o; py "-preset"; preset o; py "-crf"; crf o ] in
  let args := if Bool.eqb (niced o) true then py "nice" :: args else args in
  let args :=
    if negb (str_eqb (tune o) (py ""))
    then (args ++ [py "-tune"]) ++ [tune o]
    else args in
  let args :=
    if negb (str_eqb (extra o) (py ""))
    then fold_left (fun a tok => a ++ [tok]) (split (extra o)) args
    else args in
  let args :=
    if Bool.eqb (interactive o) false then args ++ [py "-nostdin"] else args in
  (if str_eqb (output_file o) (py "")
   then name <- gen_output_file_name;; update (set_output_file name)
   else ret tt);;
  o <- self;;
  ret (args ++ [output_file o]).

(** The local [ver] is bound only on the branch where the pattern matched;
    [None] stands for the unbound name. *)
Definition get_ffencode_version : M unit :=
  _ <- Popen_ w [py "ffmpeg"; py "-version"] PIPE false;;
  let buff := version_stdout w in
  let m := version_group buff in
  ver <- match m with
         | Some g =>
             match decode_utf8 g with
             | Some ver =>
                 log INFO "ffmpeg version: %s" [VStr ver];;
                 ret (Some ver)
             | None => raise UnicodeDecodeError
             end
         | None => ret None
         end;;
  match ver with
  | Some v => update (set_ffmpeg_ver (Some v))
  | None => raise (UnboundLocalError "ver")
  end.

(** [self.running == True and self.num_waits < self.max_waits]: reading
    [running] before [transcode] has set it raises [AttributeError]. *)
Definition loop_guard : M bool :=
  o <- self;;
  match running o with
  | None => raise AttributeError
  | Some r => ret (Bool.eqb r true && (num_waits o <? max_waits o))
  end.

(** The [while] loop of [transcode].  Every turn adds one to [num_waits] and
    nothing else changes [num_waits] or [max_waits], so the loop makes at
    most [max_waits - num_waits] turns; [n] counts the turns that remain
    ([wait_turns_guard_exhausted] below: when [n] is used up the
    guard is false); the guard is evaluated once more then, as the [while]
    does before it leaves. *)
Fixpoint wait_turns (n : nat) : M unit :=
  match n with
  | O => _ <- loop_guard;; ret tt
  | S n' =>
      g <- loop_guard;;
      if g
      then
        update (fun o => set_num_waits (num_waits o + 1) o);;
        o <- self;;
        emit (EvSleep (wait_interval o));;
        handle_subprocess;;
        wait_turns n'
      else ret tt
  end.

Definition wait_loop : M unit :=
  o <- self;;
  wait_turns (Z.to_nat (max_waits o - num_waits o)).

Definition transcode : M (option Z) :=
  o <- self;;
  outfile <-
    (if negb (str_eqb (subprocess_out o) (py "-"))
     then
       emit (EvOpen (subprocess_out o));;
       (if open_ok w (subprocess_out o) then ret tt
        else raise (OSError (open_error w (subprocess_out o))));;
       log INFO
         ("Opened file " ++ dquote ++ "%s" ++ dquote
          ++ " for subprocess output.")%string
         [VStr (subprocess_out o)];;
       ret (ToFile (subprocess_out o))
     else
       log INFO "Using stdout for subporcess output." [];;
       ret Inherit);;
  get_ffencode_version;;
  args <- gen_transcode_args;;
  log INFO "Starting Popen with args: %s" [VList args];;
  p <- Popen_ w args outfile true;;
  update (set_sp (Some p));;
  update (set_running (Some true));;
  wait_loop;;
  o <- self;;
  (if num_waits o =? max_waits o
   then raise (Exception "Transcode took longer tham max %s seconds."
                 [VInt (max_waits o * wait_interval o)])
   else ret tt);;
  o <- self;;
  ret (exit_code o).

End Methods.

(** ** The command line *)

(** The values [parser.parse_args()] leaves in [options]. *)
Record Options := mkOptions {
  opt_input_file : str;
  opt_output_file : str;
  opt_verbose : bool;
  opt_not_nice : bool;
  opt_interactive : bool;
  opt_codec : str;
  opt_profile : str;
  opt_level : str;
  opt_preset : str;
  opt_crf : str;
  opt_tune : str;
  opt_extra : str;
  opt_subprocess_out_file : str
}.

(** The defaults of [command_line_parser]. *)
Definition default_options : Options :=
  mkOptions (py "") (py "") false false false (py "libx264") (py "High")
    (py "6.2") (py "9") (py "17") (py "") (py "") (py "-").

Definition verbose_logging (verbose : bool) : list event :=
  [EvSetLevel (if verbose then DEBUG else INFO)].

(** The [__main__] block: the calls made and the exception that ends the
    process ([SystemExit] carries the exit status). *)
Definition main (w : World) (options : Options) : list event * exn :=
  let t0 := verbose_logging (opt_verbose options) in
  if (0 <? List.length (opt_input_file options))%nat then
    let '(fftranscode, t1) :=
      init (negb (opt_not_nice options)) (opt_input_file options)
        (opt_output_file options) (opt_codec options) (opt_profile options)
        (opt_level options) (opt_preset options) (opt_crf options)
        (opt_tune options) (opt_extra options)
        (opt_subprocess_out_file options) (opt_interactive options) in
    let t2 := [EvSignal; EvPrintObj fftranscode] in
    let r := transcode w fftranscode in
    match res r with
    | Ret exit_code => (t0 ++ t1 ++ t2 ++ trace r, SystemExit exit_code)
    | Raise e =>
        if is_Exception e then
          let t3 := [EvPrintExn e; EvLog ERROR "Exception: %s" [VType (type_name e)]] in
          let c := cancel_transcode w false (obj r) in
          (t0 ++ t1 ++ t2 ++ trace r ++ t3 ++ trace c,
           match res c with
           | Ret _ => e
           | Raise e' => e'
           end)
        else (t0 ++ t1 ++ t2 ++ trace r, e)
    end
  else
    (t0 ++ [EvPrint (py "ERROR: input file must be set.")],
     SystemExit (Some 1)).

(** * Derived definitions

    What the statements below are written with: the builder as a function of
    the object, the pieces of [transcode], predicates on computations, and
    the objects and worlds of the examples. *)

(** The name [gen_output_file_name] computes. *)
Definition generated_name (o : Fftranscode) : str :=
  (strip_last4 (input_file o) ++ py " - ffmpeg:" ++ percent_s (ffmpeg_ver o)
   ++ py "_c:" ++ codec_lib o ++ py "_p:" ++ profile o
   ++ py "_l:" ++ level o ++ py "_r:" ++ preset o ++ py "_f:" ++ crf o)
  ++ (if str_eqb (tune o) (py "") then [] else py "_t:" ++ tune o)
  ++ py ".mkv".

(** The output path the builder ends up with. *)
Definition resolved_output (o : Fftranscode) : str :=
  if str_eqb (output_file o) (py "") then generated_name o else output_file o.

Definition base_args (o : Fftranscode) : list str :=
  [ py "ffmpeg"; py "-hide_banner"; py "-n"; py "-i"; input_file o;
    py "-map"; py "0"; py "-codec:a"; py "copy"; py "-codec:s"; py "copy";
    py "-codec:v"; codec_lib o; py "-profile:v"; profile o;
    py "-level"; level o; py "-preset"; preset o; py "-crf"; crf o ].

Definition tune_args (o : Fftranscode) : list str :=
  if str_eqb (tune o) (py "") then [] else [py "-tune"; tune o].

(** Everything the builder puts before the output path. *)
Definition argv_front (o : Fftranscode) : list str :=
  (if niced o then [py "nice"] else []) ++ base_args o ++ tune_args o
  ++ (if str_eqb (extra o) (py "") then [] else split (extra o))
  ++ (if interactive o then [] else [py "-nostdin"]).

(** The object of the running example: [movie.mp4] with the defaults of the
    command line, after the engine reported version [6.0]. *)
Definition movie_object : Fftranscode :=
  set_ffmpeg_ver (Some (py "6.0"))
    (fst (init true (py "movie.mp4") (py "") (py "libx264") (py "High")
            (py "6.2") (py "9") (py "17") (py "") (py "") (py "-") false)).

(** The format of a generated name, written after its description:
    [<stem> - ffmpeg:<ver>_c:<codec>_p:<profile>_l:<level>_r:<preset>_f:<crf>],
    then [_t:<tune>] when there is a tune, then [.mkv]. *)
Definition name_format (stem ver codec prof lvl pre rate tun : str) : str :=
  stem ++ py " - ffmpeg:" ++ ver ++ py "_c:" ++ codec ++ py "_p:" ++ prof
  ++ py "_l:" ++ lvl ++ py "_r:" ++ pre ++ py "_f:" ++ rate
  ++ match tun with
     | [] => []
     | _ :: _ => py "_t:" ++ tun
     end
  ++ py ".mkv".

(** [o] with another [extra]. *)
Definition with_extra (v : str) (o : Fftranscode) : Fftranscode :=
  mkFftranscode (niced o) (input_file o) (output_file o) (codec_lib o)
    (profile o) (level o) (preset o) (crf o) (tune o) v
    (subprocess_out o) (interactive o) (num_waits o) (max_waits o)
    (wait_interval o) (exit_code o) (sp o) (ffmpeg_ver o) (running o).

(** The values of the configuration that reach argv as tokens of their own,
    the tune apart. *)
Definition configured_tokens (o : Fftranscode) : list str :=
  [input_file o; codec_lib o; profile o; level o; preset o; crf o]
  ++ split (extra o) ++ [output_file o].

(** An object whose extra arguments carry a tune flag of their own. *)
Definition extra_tune_object : Fftranscode :=
  with_extra (py "-tune film") movie_object.

(** A world in which every file opens and every process starts; the engine
    prints [banner] as its version and the transcoding child answers its polls
    by [status]. *)
Definition world_of (banner : bytes) (status : nat -> option Z) : World :=
  mkWorld banner (fun _ => true) (fun _ => true) status (-9)
    (fun _ => "FileNotFoundError"%string) (fun _ => "FileNotFoundError"%string).

Definition banner_6_0 : bytes :=
  pyb "ffmpeg version 6.0 Copyright (c) 2000-2023 the FFmpeg developers".

(** An object whose child was seen to exit with status 0 by its first poll. *)
Definition exited_object : Fftranscode :=
  set_sp (Some (mkPopen [py "ffmpeg"] (Some 0) 1 0 0)) movie_object.

(** The engine prints nothing on its standard output. *)
Definition silent_world : World := world_of (pyb "") (fun _ => None).

Definition movie_options : Options :=
  mkOptions (py "movie.mp4") (py "") false false false (py "libx264")
    (py "High") (py "6.2") (py "9") (py "17") (py "") (py "") (py "-").

(** The object [main] builds from [movie_options]. *)
Definition movie_start : Fftranscode :=
  fst (init true (py "movie.mp4") (py "") (py "libx264") (py "High")
         (py "6.2") (py "9") (py "17") (py "") (py "") (py "-") false).

(** The guard of the [while] loop, for an object on which [running] is
    set. *)
Definition guard (o : Fftranscode) : bool :=
  match running o with Some true => true | _ => false end
  && (num_waits o <? max_waits o).

(** [transcode] up to the loop, and from the loop on. *)
Definition transcode_start (w : World) : M unit :=
  (o <- self;;
  outfile <-
    (if negb (str_eqb (subprocess_out o) (py "-"))
     then
       emit (EvOpen (subprocess_out o));;
       (if open_ok w (subprocess_out o) then ret tt
        else raise (OSError (open_error w (subprocess_out o))));;
       log INFO
         ("Opened file " ++ dquote ++ "%s" ++ dquote
          ++ " for subprocess output.")%string
         [VStr (subprocess_out o)];;
       ret (ToFile (subprocess_out o))
     else
       log INFO "Using stdout for subporcess output." [];;
       ret Inherit);;
  get_ffencode_version w;;
  args <- gen_transcode_args;;
  log INFO "Starting Popen with args: %s" [VList args];;
  p <- Popen_ w args outfile true;;
  update (set_sp (Some p));;
  update (set_running (Some true)))%py.

Definition transcode_finish : M (option Z) :=
  (o <- self;;
  (if num_waits o =? max_waits o
   then raise (Exception "Transcode took longer tham max %s seconds."
                 [VInt (max_waits o * wait_interval o)])
   else ret tt);;
  o <- self;;
  ret (exit_code o))%py.

(** The supervisor is watching a child that [q] polls have found running. *)
Definition live (o : Fftranscode) (q : nat) : Prop :=
  running o = Some true
  /\ exists p, sp o = Some p /\ returncode p = None /\ polls p = q.

(** What holds of the value and the object when a computation returns. *)
Definition ensures {A} (m : M A) (Q : A -> Fftranscode -> Prop) : Prop :=
  forall o a, res (m o) = Ret a -> Q a (obj (m o)).

(** The counters of the loop are left alone. *)
Definition same_clock (o o' : Fftranscode) : Prop :=
  num_waits o' = num_waits o /\ max_waits o' = max_waits o
  /\ wait_interval o' = wait_interval o.

Definition keeps_clock {A} (m : M A) : Prop :=
  forall o, same_clock o (obj (m o)).

(** The failure [transcode] raises when [num_waits] has reached
    [max_waits]. *)
Definition elapsed_time_exceeded (o : Fftranscode) : exn :=
  Exception "Transcode took longer tham max %s seconds."
    [VInt (max_waits o * wait_interval o)].

(** The child is found running by the polls before the one numbered
    [at_poll], and gone with status [rc] from that one on. *)
Definition exits_at (at_poll : Z) (rc : Z) (j : nat) : option Z :=
  if at_poll <=? Z.of_nat j then Some rc else None.

(** The object [main] builds from [options]. *)
Definition object_of (options : Options) : Fftranscode :=
  fst (init (negb (opt_not_nice options)) (opt_input_file options)
         (opt_output_file options) (opt_codec options) (opt_profile options)
         (opt_level options) (opt_preset options) (opt_crf options)
         (opt_tune options) (opt_extra options)
         (opt_subprocess_out_file options) (opt_interactive options)).

(** The running example with the tune [film]. *)
Definition film_object : Fftranscode :=
  set_ffmpeg_ver (Some (py "6.0"))
    (fst (init true (py "movie.mp4") (py "") (py "libx264") (py "High")
            (py "6.2") (py "9") (py "17") (py "film") (py "-x 1 -y 2")
            (py "-") false)).

(** The running example with a space, a tab and a space as [extra]. *)
Definition blank_extra_object : Fftranscode :=
  with_extra [32; 9; 32]%N movie_object.

(** [' '.join(toks)] *)
Fixpoint join_spaces (toks : list str) : str :=
  match toks with
  | [] => []
  | [t] => t
  | t :: (_ :: _) as rest => t ++ 32%N :: join_spaces rest
  end.

(** A token as [split] produces it: not empty, and free of whitespace. *)
Definition token (t : str) : Prop :=
  t <> [] /\ Forall (fun c => isspace c = false) t.


(** A byte below 128. *)
Definition ascii_byte (b : byte) : Prop := (Byte.to_N b < 128)%N.


(** Where [transcode] sends the output of the child, and what it does to get
    there. *)
Definition output_target (o : Fftranscode) : stdout_target :=
  if str_eqb (subprocess_out o) (py "-")
  then Inherit else ToFile (subprocess_out o).

Definition output_events (o : Fftranscode) : list event :=
  if str_eqb (subprocess_out o) (py "-")
  then [EvLog INFO "Using stdout for subporcess output." []]
  else [EvOpen (subprocess_out o);
        EvLog INFO
          ("Opened file " ++ dquote ++ "%s" ++ dquote
           ++ " for subprocess output.")%string
          [VStr (subprocess_out o)]].

(** The argv the builder returns. *)
Definition argv_of (o : Fftranscode) : list str :=
  argv_front o ++ [resolved_output o].

(** The calls [transcode] makes up to and including the start of the child,
    for an object [o] whose version [v] has just been stored. *)
Definition start_events (o : Fftranscode) (v : str) : list event :=
  output_events o
  ++ [EvPopen [py "ffmpeg"; py "-version"] PIPE false;
      EvLog INFO "ffmpeg version: %s" [VStr v]]
  ++ (if str_eqb (output_file o) (py "")
      then [EvLog INFO "Generated output file name: %s"
              [VStr (generated_name (set_ffmpeg_ver (Some v) o))]]
      else [])
  ++ [EvLog INFO "Starting Popen with args: %s"
        [VList (argv_of (set_ffmpeg_ver (Some v) o))];
      EvPopen (argv_of (set_ffmpeg_ver (Some v) o)) (output_target o) true].

(** The object when the loop is entered. *)
Definition started (o : Fftranscode) (v : str) : Fftranscode :=
  set_running (Some true)
    (set_sp (Some (mkPopen (argv_of (set_ffmpeg_ver (Some v) o)) None O O O))
       (set_output_file (resolved_output (set_ffmpeg_ver (Some v) o))
          (set_ffmpeg_ver (Some v) o))).

Definition is_sleep (ev : event) : bool :=
  match ev with EvSleep _ => true | _ => false end.

Definition is_poll (ev : event) : bool :=
  match ev with EvPoll => true | _ => false end.

(** An event of the outside that starts, signals or reaps a process. *)
Definition is_process_call (ev : event) : bool :=
  match ev with
  | EvPopen _ _ _ | EvKill | EvWait => true
  | _ => false
  end.

(** How many events of a trace satisfy [f]. *)
Definition count (f : event -> bool) (t : list event) : nat :=
  List.length (filter f t).

(** No event of the trace starts, signals or reaps a process. *)
Definition no_process_call (t : list event) : Prop :=
  forallb (fun ev => negb (is_process_call ev)) t = true.

(** Everything the outside must grant for [transcode] to reach its loop with
    version [v]: the output file opens, both processes start, and the banner
    matches and decodes to [v]. *)
Definition starts (w : World) (o : Fftranscode) (v : str) : Prop :=
  (str_eqb (subprocess_out o) (py "-") = false ->
   open_ok w (subprocess_out o) = true)
  /\ spawn_ok w [py "ffmpeg"; py "-version"] = true
  /\ (exists g, version_group (version_stdout w) = Some g
                /\ decode_utf8 g = Some v)
  /\ spawn_ok w (argv_of (set_ffmpeg_ver (Some v) o)) = true.

(** A world in which no file can be opened for writing. *)
Definition read_only_world : World :=
  mkWorld banner_6_0 (fun _ => false) (fun _ => true) (fun _ => None) (-9)
    (fun _ => "PermissionError"%string) (fun _ => "FileNotFoundError"%string).

(** A world without the [nice] command: a process starts only when its
    first word is [ffmpeg]. *)
Definition no_nice_world : World :=
  mkWorld banner_6_0 (fun _ => true)
    (fun args => str_eqb (hd [] args) (py "ffmpeg")) (fun _ => None) (-9)
    (fun _ => "PermissionError"%string) (fun _ => "FileNotFoundError"%string).

(** The running example with the output of the child sent to [out.log]. *)
Definition logged_options : Options :=
  mkOptions (py "movie.mp4") (py "") false false false (py "libx264")
    (py "High") (py "6.2") (py "9") (py "17") (py "") (py "")
    (py "out.log").

(** An object whose input path has three characters. *)
Definition short_object : Fftranscode :=
  set_ffmpeg_ver (Some (py "6.0"))
    (fst (init true (py "a.b") (py "") (py "libx264") (py "High")
            (py "6.2") (py "9") (py "17") (py "") (py "") (py "-") false)).

(** The status query that [kill] makes finds the child of [p] running. *)
Definition still_running (w : World) (p : Popen) : bool :=
  match returncode (poll w p) with
  | None => true
  | Some _ => false
  end.

(** The running example inside its loop: the child has been started, and
    its third poll is the first to find it gone. *)
Definition polling_world : World := world_of banner_6_0 (exits_at 3 0).

Definition polling_object : Fftranscode := started movie_start (py "6.0").

(** The fields of the configuration other than the output path are the
    same in [o'] as in [o]. *)
Definition same_config (o o' : Fftranscode) : Prop :=
  niced o' = niced o /\ input_file o' = input_file o
  /\ codec_lib o' = codec_lib o /\ profile o' = profile o
  /\ level o' = level o /\ preset o' = preset o /\ crf o' = crf o
  /\ tune o' = tune o /\ extra o' = extra o
  /\ subprocess_out o' = subprocess_out o /\ interactive o' = interactive o.


(** The configuration is the same in [o'] as in [o], but for an output path
    that was empty. *)
Definition config_kept_but_name (o o' : Fftranscode) : Prop :=
  same_config o o'
  /\ (output_file o <> py "" -> output_file o' = output_file o).


Definition str_eq_dec : forall a b : str, {a = b} + {a <> b} :=
  list_eq_dec N.eq_dec.

(** The values of the configuration that reach argv as tokens of their
    own. *)
Definition argv_values (o : Fftranscode) : list str :=
  tune o :: configured_tokens o.

(** An object whose tune is the text of the tune flag. *)
Definition tune_as_flag_object : Fftranscode :=
  set_ffmpeg_ver (Some (py "6.0"))
    (fst (init true (py "movie.mp4") (py "") (py "libx264") (py "High")
            (py "6.2") (py "9") (py "17") (py "-tune") (py "") (py "-")
            false)).

(** * Properties *)

Arguments py : simpl never.

(** ** Strings and lists *)

Lemma str_eqb_eq (a b : str) : str_eqb a b = true <-> a = b.
Proof.
  revert b; induction a as [|x a IH]; destruct b as [|y b]; simpl;
    try (split; [discriminate | congruence]); try tauto.
  rewrite andb_true_iff, N.eqb_eq, IH.
  split; [intros [-> ->]; reflexivity | intros E; injection E; auto].
Qed.

Lemma str_eqb_neq (a b : str) : str_eqb a b = false <-> a <> b.
Proof.
  rewrite <- str_eqb_eq. destruct (str_eqb a b); split; congruence.
Qed.

Lemma py_empty : py "" = [].
Proof. reflexivity. Qed.

Lemma fold_left_append {A} (l a0 : list A) :
  fold_left (fun a tok => a ++ [tok]) l a0 = a0 ++ l.
Proof.
  revert a0; induction l as [|x l IH]; intros a0; simpl.
  - now rewrite app_nil_r.
  - rewrite IH, <- app_assoc. reflexivity.
Qed.

(** A run that starts with whitespace only and has nothing pending yields no
    token. *)
Lemma split_whitespace (s : str) :
  Forall (fun c => isspace c = true) s -> split s = [].
Proof.
  unfold split. induction 1 as [|c s Hc _ IH]; simpl.
  - reflexivity.
  - rewrite Hc. exact IH.
Qed.

(** ** The argument builder as a function of the object *)

Lemma gen_output_file_name_run (o : Fftranscode) :
  gen_output_file_name o =
  mkOut (Ret (generated_name o)) o
    [EvLog INFO "Generated output file name: %s" [VStr (generated_name o)]].
Proof.
  unfold gen_output_file_name, generated_name, bind, self, log, emit, ret.
  simpl. destruct (str_eqb (tune o) (py "")); simpl;
    rewrite ?app_nil_l, <- ?app_assoc; reflexivity.
Qed.

Lemma gen_transcode_args_run (o : Fftranscode) :
  gen_transcode_args o =
  mkOut (Ret (argv_front o ++ [resolved_output o]))
    (set_output_file (resolved_output o) o)
    (if str_eqb (output_file o) (py "")
     then [EvLog INFO "Generated output file name: %s"
             [VStr (generated_name o)]]
     else []).
Proof.
  unfold gen_transcode_args, resolved_output, bind at 1 2.
  unfold self at 1. cbn [res obj trace].
  assert (Hfront :
    (if Bool.eqb (interactive o) false
     then (if negb (str_eqb (extra o) (py ""))
           then fold_left (fun a tok => a ++ [tok]) (split (extra o))
                  (if negb (str_eqb (tune o) (py ""))
                   then ((if Bool.eqb (niced o) true
                          then py "nice" :: base_args o else base_args o)
                         ++ [py "-tune"]) ++ [tune o]
                   else if Bool.eqb (niced o) true
                        then py "nice" :: base_args o else base_args o)
           else if negb (str_eqb (tune o) (py ""))
                then ((if Bool.eqb (niced o) true
                       then py "nice" :: base_args o else base_args o)
                      ++ [py "-tune"]) ++ [tune o]
                else if Bool.eqb (niced o) true
                     then py "nice" :: base_args o else base_args o)
          ++ [py "-nostdin"]
     else if negb (str_eqb (extra o) (py ""))
          then fold_left (fun a tok => a ++ [tok]) (split (extra o))
                 (if negb (str_eqb (tune o) (py ""))
                  then ((if Bool.eqb (niced o) true
                         then py "nice" :: base_args o else base_args o)
                        ++ [py "-tune"]) ++ [tune o]
                  else if Bool.eqb (niced o) true
                       then py "nice" :: base_args o else base_args o)
          else if negb (str_eqb (tune o) (py ""))
               then ((if Bool.eqb (niced o) true
                      then py "nice" :: base_args o else base_args o)
                     ++ [py "-tune"]) ++ [tune o]
               else if Bool.eqb (niced o) true
                    then py "nice" :: base_args o else base_args o)
    = argv_front o).
  { unfold argv_front, tune_args. rewrite ?fold_left_append.
    destruct (interactive o), (niced o), (str_eqb (extra o) (py "")),
      (str_eqb (tune o) (py "")); cbn [Bool.eqb negb];
      rewrite ?app_nil_r, <- ?app_assoc; reflexivity. }
  fold (base_args o). rewrite Hfront. clear Hfront.
  destruct (str_eqb (output_file o) (py "")) eqn:E.
  - unfold bind. rewrite gen_output_file_name_run. reflexivity.
  - unfold bind, ret, self. cbn [res obj trace].
    destruct o; reflexivity.
Qed.

Lemma generated_name_format (o : Fftranscode) :
  generated_name o =
  name_format (strip_last4 (input_file o)) (percent_s (ffmpeg_ver o))
    (codec_lib o) (profile o) (level o) (preset o) (crf o) (tune o).
Proof.
  unfold generated_name, name_format. rewrite py_empty.
  destruct (tune o); simpl str_eqb; rewrite <- ?app_assoc; reflexivity.
Qed.

(** A generated name ends in [v], so it is never the tune flag. *)
Lemma generated_name_not_flag (o : Fftranscode) :
  generated_name o <> py "-tune".
Proof.
  unfold generated_name. intros E.
  apply (f_equal (fun l => last l 0%N)) in E.
  change (py ".mkv") with ([46; 109; 107] ++ [118])%N in E.
  rewrite !app_assoc, last_last in E. vm_compute in E. discriminate.
Qed.

Lemma base_args_no_flag (o : Fftranscode) :
  ~ In (py "-tune") (configured_tokens o) -> ~ In (py "-tune") (base_args o).
Proof.
  unfold configured_tokens, base_args. intros H Hin. apply H.
  rewrite in_app_iff. left.
  simpl in Hin |- *.
  repeat (destruct Hin as [Hin | Hin];
          [ first [ now auto 10 | exfalso; vm_compute in Hin; discriminate ] | ]).
  contradiction.
Qed.

Lemma resolved_output_no_flag (o : Fftranscode) :
  ~ In (py "-tune") (configured_tokens o) -> resolved_output o <> py "-tune".
Proof.
  unfold configured_tokens, resolved_output. intros H.
  destruct (str_eqb (output_file o) (py "")).
  - apply generated_name_not_flag.
  - intros E. apply H. rewrite !in_app_iff. right. right. left. exact E.
Qed.

Lemma tail_args_no_flag (o : Fftranscode) :
  ~ In (py "-tune") (configured_tokens o) ->
  ~ In (py "-tune")
      ((if str_eqb (extra o) (py "") then [] else split (extra o))
       ++ (if interactive o then [] else [py "-nostdin"])
       ++ [resolved_output o]).
Proof.
  intros H. pose proof (resolved_output_no_flag o H) as Hout.
  unfold configured_tokens in H. rewrite !in_app_iff in *.
  intros [Hin | [Hin | Hin]].
  - destruct (str_eqb (extra o) (py "")); [contradiction | ]. tauto.
  - destruct (interactive o); [contradiction | ].
    destruct Hin as [Hin | []]. vm_compute in Hin. discriminate.
  - destruct Hin as [Hin | []]. congruence.
Qed.

(** ** The argument builder *)

(** *** What the operations leave alone *)

Section Keeping.

Variable R : Fftranscode -> Fftranscode -> Prop.
Hypothesis R_refl : forall o, R o o.
Hypothesis R_trans : forall o1 o2 o3, R o1 o2 -> R o2 o3 -> R o1 o3.








End Keeping.



Lemma config_kept_but_name_refl (o : Fftranscode) : config_kept_but_name o o.
Proof. repeat split. Qed.


















(** C6: the example of the naming convention, and the format for every
    object. *)
Theorem gen_output_file_name_example :
  res (gen_output_file_name movie_object)
  = Ret (py "movie - ffmpeg:6.0_c:libx264_p:High_l:6.2_r:9_f:17.mkv")
  /\ forall o : Fftranscode,
       res (gen_output_file_name o)
       = Ret (name_format (strip_last4 (input_file o))
                (percent_s (ffmpeg_ver o)) (codec_lib o) (profile o)
                (level o) (preset o) (crf o) (tune o)).
Proof.
  split.
  - vm_compute. reflexivity.
  - intros o. rewrite gen_output_file_name_run, generated_name_format.
    reflexivity.
Qed.

Lemma count_occ_absent (l : list str) (x : str) :
  ~ In x l -> count_occ str_eq_dec l x = 0%nat.
Proof. apply count_occ_not_In. Qed.

(** C7, as the code has it: when none of the configured values that become
    tokens of argv is the text [-tune], an empty tune puts no [-tune] into
    argv, and a tune that is set puts exactly one there, with the tune right
    behind it. *)
Theorem tune_flag_exactly_once (o : Fftranscode) :
  ~ In (py "-tune") (argv_values o) ->
  exists argv,
    res (gen_transcode_args o) = Ret argv
    /\ (tune o = py "" -> ~ In (py "-tune") argv)
    /\ (tune o <> py "" ->
        count_occ str_eq_dec argv (py "-tune") = 1%nat
        /\ exists pre post,
             argv = pre ++ py "-tune" :: tune o :: post
             /\ ~ In (py "-tune") pre /\ ~ In (py "-tune") post).
Proof.
  unfold argv_values. intros Hv.
  assert (Ht : tune o <> py "-tune") by (intros E; apply Hv; left; exact E).
  assert (H : ~ In (py "-tune") (configured_tokens o))
    by (intros Hin; apply Hv; right; exact Hin).
  rewrite gen_transcode_args_run. cbn [res].
  eexists. split; [reflexivity | ].
  pose proof (base_args_no_flag o H) as Hbase.
  pose proof (tail_args_no_flag o H) as Htail.
  assert (Hnice : ~ In (py "-tune") (if niced o then [py "nice"] else [])).
  { destruct (niced o); [ | tauto].
    intros [Hin | []]. vm_compute in Hin. discriminate. }
  assert (Hpre : ~ In (py "-tune")
                   ((if niced o then [py "nice"] else []) ++ base_args o))
    by (rewrite in_app_iff; tauto).
  unfold argv_front, tune_args. split.
  - intros Hemp. apply str_eqb_eq in Hemp. rewrite Hemp.
    rewrite <- !app_assoc. cbn [app].
    rewrite in_app_iff, in_app_iff. tauto.
  - intros Hset. apply str_eqb_neq in Hset. rewrite Hset.
    assert (E : ((if niced o then [py "nice"] else []) ++
                 base_args o ++ [py "-tune"; tune o] ++
                 (if str_eqb (extra o) (py "") then [] else split (extra o)) ++
                 (if interactive o then [] else [py "-nostdin"])) ++
                [resolved_output o]
                = ((if niced o then [py "nice"] else []) ++ base_args o)
                  ++ py "-tune" :: tune o
                  :: ((if str_eqb (extra o) (py "") then []
                       else split (extra o))
                      ++ (if interactive o then [] else [py "-nostdin"])
                      ++ [resolved_output o]))
      by (rewrite <- !app_assoc; reflexivity).
    rewrite E. split.
    + rewrite count_occ_app, (count_occ_absent _ _ Hpre).
      rewrite count_occ_cons_eq by reflexivity.
      rewrite count_occ_cons_neq by exact Ht.
      rewrite (count_occ_absent _ _ Htail). reflexivity.
    + eexists. eexists. split; [reflexivity | ]. split; assumption.
Qed.

(** C7 as stated fails twice: with an empty tune, [extra] puts [-tune] into
    argv; with the tune [-tune], argv holds two of them. *)
Lemma tune_flag_from_extra_or_tune :
  (tune extra_tune_object = py ""
   /\ exists argv,
        res (gen_transcode_args extra_tune_object) = Ret argv
        /\ In (py "-tune") argv)
  /\ (tune tune_as_flag_object <> py ""
      /\ exists argv,
           res (gen_transcode_args tune_as_flag_object) = Ret argv
           /\ count_occ str_eq_dec argv (py "-tune") = 2%nat).
Proof.
  split.
  - split; [reflexivity | ].
    eexists. split; [vm_compute; reflexivity | ].
    vm_compute. auto 40.
  - split; [discriminate | ].
    eexists. split; [vm_compute; reflexivity | ].
    vm_compute. reflexivity.
Qed.

(** C8: the resolved output path is the last element of argv. *)
Theorem gen_transcode_args_output_last (o : Fftranscode) :
  exists front,
    res (gen_transcode_args o) = Ret (front ++ [resolved_output o])
    /\ last (front ++ [resolved_output o]) [] =
       (if str_eqb (output_file o) (py "")
        then generated_name o else output_file o).
Proof.
  exists (argv_front o). rewrite gen_transcode_args_run. cbn [res].
  split; [reflexivity | ]. rewrite last_last. reflexivity.
Qed.

(** C10: an [extra] made of whitespace only adds nothing to argv. *)
Theorem whitespace_extra_adds_nothing (o : Fftranscode) :
  extra o <> py "" ->
  Forall (fun c => isspace c = true) (extra o) ->
  res (gen_transcode_args o) = res (gen_transcode_args (with_extra (py "") o)).
Proof.
  intros Hne Hws. rewrite !gen_transcode_args_run. cbn [res].
  apply str_eqb_neq in Hne.
  unfold argv_front. rewrite Hne, (split_whitespace _ Hws).
  reflexivity.
Qed.

(** ** Cancelling *)

Lemma cancel_transcode_run (w : World) (exit : bool) (o : Fftranscode) :
  cancel_transcode w exit o =
  mkOut (if exit then Raise (SystemExit (Some 2)) else Ret tt)
    (match sp o with
     | Some p => set_sp (Some (wait w (kill w p))) o
     | None => o
     end)
    (EvLog WARNING "Cancelling transcode." []
     :: match sp o with
        | Some _ =>
            [EvLog WARNING "Subprocess still executing, sending Kill signal."
               []; EvKill; EvWait]
        | None => []
        end).
Proof.
  unfold cancel_transcode, bind, self, log, emit, update, raise, ret.
  cbn [res obj trace].
  destruct o as [? ? ? ? ? ? ? ? ? ? ? ? ? ? ? ? [p | ] ? ?], exit;
    reflexivity.
Qed.

Lemma poll_keeps_counts (w : World) (p : Popen) :
  signals_sent (poll w p) = signals_sent p
  /\ blocking_waits (poll w p) = blocking_waits p.
Proof. unfold poll. destruct (returncode p); split; reflexivity. Qed.

Lemma cancel_handle_effect (w : World) (p : Popen) :
  signals_sent (wait w (kill w p))
  = (signals_sent p + (if still_running w p then 1 else 0))%nat
  /\ blocking_waits (wait w (kill w p))
     = (blocking_waits p + (if still_running w p then 1 else 0))%nat
  /\ returncode (wait w (kill w p)) <> None.
Proof.
  unfold wait, kill, still_running. cbv zeta.
  destruct (poll_keeps_counts w p) as [Hs Hb].
  destruct (returncode (poll w p)) as [rc | ] eqn:E; cbn; rewrite ?E; cbn;
    rewrite Hs, Hb; repeat split; try lia; discriminate.
Qed.

(** C4: the termination signal is sent, and the wait blocks, exactly when a
    handle exists and its child has not exited; the handle is reaped
    afterwards; with no handle nothing is killed or waited for.  Then a
    requested exit ends the process with status 2, and otherwise control
    returns. *)
Theorem cancel_transcode_signals_live_child
    (w : World) (exit : bool) (o : Fftranscode) :
  (forall p, sp o = Some p ->
     exists p',
       sp (obj (cancel_transcode w exit o)) = Some p'
       /\ signals_sent p'
          = (signals_sent p + (if still_running w p then 1 else 0))%nat
       /\ blocking_waits p'
          = (blocking_waits p + (if still_running w p then 1 else 0))%nat
       /\ returncode p' <> None)
  /\ (sp o = None ->
      obj (cancel_transcode w exit o) = o
      /\ ~ In EvKill (trace (cancel_transcode w exit o))
      /\ ~ In EvWait (trace (cancel_transcode w exit o)))
  /\ res (cancel_transcode w exit o)
     = (if exit then Raise (SystemExit (Some 2)) else Ret tt).
Proof.
  rewrite cancel_transcode_run. cbn [res obj trace].
  split; [ | split; [ | reflexivity]].
  - intros p Hsp. rewrite Hsp. exists (wait w (kill w p)).
    split; [reflexivity | apply cancel_handle_effect].
  - intros Hsp. rewrite Hsp. split; [reflexivity | ].
    split; intros H; cbn [In] in H; intuition discriminate.
Qed.

(** On a handle whose child was already seen to exit, cancelling calls
    [kill] and [wait], and neither reaches the operating system. *)
Example cancel_transcode_exited_child :
  In EvKill (trace (cancel_transcode silent_world false exited_object))
  /\ option_map signals_sent
       (sp (obj (cancel_transcode silent_world false exited_object)))
     = Some 0%nat
  /\ option_map blocking_waits
       (sp (obj (cancel_transcode silent_world false exited_object)))
     = Some 0%nat.
Proof.
  rewrite cancel_transcode_run. cbn [trace obj].
  split; [cbn; auto 10 | split; reflexivity].
Qed.

(** ** The command line *)

(** C9: without an input file the program prints the error, exits with
    status 1 and starts no process. *)
Theorem main_missing_input_file (w : World) (options : Options) :
  opt_input_file options = py "" ->
  main w options
  = (verbose_logging (opt_verbose options)
     ++ [EvPrint (py "ERROR: input file must be set.")],
     SystemExit (Some 1))
  /\ forall args out err, ~ In (EvPopen args out err) (fst (main w options)).
Proof.
  intros Hin. unfold main. rewrite Hin. rewrite py_empty. cbn [List.length Nat.ltb Nat.leb].
  split; [reflexivity | ].
  intros args out err. cbn [fst]. unfold verbose_logging.
  intros [H | [H | []]]; discriminate.
Qed.

(** ** Version detection *)

Lemma get_ffencode_version_miss (w : World) (o : Fftranscode) :
  spawn_ok w [py "ffmpeg"; py "-version"] = true ->
  version_group (version_stdout w) = None ->
  get_ffencode_version w o
  = mkOut (Raise (UnboundLocalError "ver")) o
      [EvPopen [py "ffmpeg"; py "-version"] PIPE false].
Proof.
  intros Hs Hm.
  unfold get_ffencode_version, Popen_, bind, emit, raise, ret.
  cbn [res obj trace]. rewrite Hs. cbn [res obj trace]. rewrite Hm.
  reflexivity.
Qed.

(** C1, on the code: when the pattern does not match, the assignment of the
    unbound local [ver] raises; nothing is logged by the query, and
    [transcode] ends there, before any argument is built. *)
Theorem version_miss_raises :
  version_group (version_stdout silent_world) = None
  /\ get_ffencode_version silent_world movie_start
     = mkOut (Raise (UnboundLocalError "ver")) movie_start
         [EvPopen [py "ffmpeg"; py "-version"] PIPE false]
  /\ transcode silent_world movie_start
     = mkOut (Raise (UnboundLocalError "ver")) movie_start
         [EvLog INFO "Using stdout for subporcess output." [];
          EvPopen [py "ffmpeg"; py "-version"] PIPE false]
  /\ snd (main silent_world movie_options) = UnboundLocalError "ver".
Proof.
  split; [reflexivity | ].
  split; [apply get_ffencode_version_miss; reflexivity | ].
  split; vm_compute; reflexivity.
Qed.

(** ** The polling loop *)

Section Loop.

Variable w : World.

Lemma handle_subprocess_run (o : Fftranscode) (p : Popen) :
  sp o = Some p ->
  handle_subprocess w o =
  match returncode (poll w p) with
  | Some rc =>
      mkOut (Ret tt)
        (set_exit_code (Some rc)
           (set_running (Some false) (set_sp (Some (poll w p)) o)))
        [EvPoll;
         EvLog INFO
           ("Subprocess has exited. Exit code " ++ dquote ++ "%d" ++ dquote
            ++ ".")%string [VInt rc]]
  | None => mkOut (Ret tt) (set_sp (Some (poll w p)) o) [EvPoll]
  end.
Proof.
  intros Hsp. destruct o. cbn [sp] in Hsp. subst.
  unfold handle_subprocess, bind, self, log, emit, update, raise, ret.
  cbn [res obj trace sp set_sp app].
  destruct (returncode (poll w p)); reflexivity.
Qed.

Lemma loop_guard_run (o : Fftranscode) :
  loop_guard o
  = match running o with
    | None => mkOut (Raise AttributeError) o []
    | Some _ => mkOut (Ret (guard o)) o []
    end.
Proof.
  unfold loop_guard, guard, bind, self, raise, ret. cbn [res obj trace].
  destruct (running o) as [[ | ] | ]; reflexivity.
Qed.

Lemma wait_turns_unset (n : nat) (o : Fftranscode) :
  running o = None ->
  wait_turns w n o = mkOut (Raise AttributeError) o [].
Proof.
  intros Hr. destruct n; cbn [wait_turns]; unfold bind at 1;
    rewrite loop_guard_run, Hr; reflexivity.
Qed.

Lemma wait_turns_O (o : Fftranscode) :
  running o <> None -> wait_turns w O o = mkOut (Ret tt) o [].
Proof.
  intros Hr. cbn [wait_turns]. unfold bind at 1. rewrite loop_guard_run.
  destruct (running o); [reflexivity | congruence].
Qed.

Lemma wait_turns_S (n : nat) (o : Fftranscode) :
  running o <> None ->
  wait_turns w (S n) o =
  if guard o then
    let o1 := set_num_waits (num_waits o + 1) o in
    let h := handle_subprocess w o1 in
    match res h with
    | Ret _ =>
        let r := wait_turns w n (obj h) in
        mkOut (res r) (obj r) (EvSleep (wait_interval o) :: trace h ++ trace r)
    | Raise e => mkOut (Raise e) (obj h) (EvSleep (wait_interval o) :: trace h)
    end
  else mkOut (Ret tt) o [].
Proof.
  intros Hr. cbn [wait_turns]. unfold bind at 1. rewrite loop_guard_run.
  destruct (running o) as [r | ]; [ | congruence]. cbn [res obj trace].
  destruct (guard o); [ | reflexivity].
  unfold bind, update, self, emit. cbn [res obj trace].
  destruct (res (handle_subprocess w (set_num_waits (num_waits o + 1) o)));
    reflexivity.
Qed.

Lemma wait_turns_guard_false (n : nat) (o : Fftranscode) :
  running o <> None ->
  guard o = false -> wait_turns w n o = mkOut (Ret tt) o [].
Proof.
  intros Hr Hg. destruct n; [apply wait_turns_O; exact Hr | ].
  rewrite wait_turns_S by exact Hr. rewrite Hg. reflexivity.
Qed.

End Loop.

(** ** Reasoning about computations *)

Lemma bind_assoc {A B C} (m : M A) (f : A -> M B) (g : B -> M C)
    (o : Fftranscode) :
  bind (bind m f) g o = bind m (fun a => bind (f a) g) o.
Proof.
  unfold bind. destruct (res (m o)); cbn [res obj trace]; [ | reflexivity].
  destruct (res (f a (obj (m o)))); cbn [res obj trace];
    rewrite ?app_assoc; reflexivity.
Qed.

Lemma bind_ext {A B} (m : M A) (f g : A -> M B) (o : Fftranscode) :
  (forall a o', f a o' = g a o') -> bind m f o = bind m g o.
Proof.
  intros H. unfold bind. destruct (res (m o)); [rewrite H | ]; reflexivity.
Qed.

Lemma transcode_split (w : World) (o : Fftranscode) :
  transcode w o
  = bind (transcode_start w) (fun _ => bind (wait_loop w) (fun _ => transcode_finish)) o.
Proof.
  symmetry. unfold transcode, transcode_start.
  repeat (rewrite bind_assoc; apply bind_ext; intros).
  reflexivity.
Qed.

Lemma ensures_bind {A B} (m : M A) (f : A -> M B) (P : A -> Prop)
    (Q : B -> Fftranscode -> Prop) :
  (forall o a, res (m o) = Ret a -> P a) ->
  (forall a, P a -> ensures (f a) Q) ->
  ensures (bind m f) Q.
Proof.
  intros Hm Hf o b. unfold bind.
  destruct (res (m o)) as [a | e] eqn:E; cbn [res obj]; [ | discriminate].
  intros Hb. apply (Hf a (Hm o a E)). exact Hb.
Qed.

Lemma ensures_then {A B} (m : M A) (f : A -> M B)
    (Q : B -> Fftranscode -> Prop) :
  (forall a, ensures (f a) Q) -> ensures (bind m f) Q.
Proof.
  intros Hf. apply (ensures_bind m f (fun _ => True)); auto.
Qed.

Lemma keeps_bind {A B} (m : M A) (f : A -> M B) :
  keeps_clock m -> (forall a, keeps_clock (f a)) -> keeps_clock (bind m f).
Proof.
  intros Hm Hf o. unfold bind.
  destruct (res (m o)) as [a | e]; cbn [obj]; [ | apply Hm].
  destruct (Hm o) as (H1 & H2 & H3), (Hf a (obj (m o))) as (H4 & H5 & H6).
  repeat split; congruence.
Qed.

Lemma keeps_ret {A} (a : A) : keeps_clock (ret a).
Proof. intros o. repeat split. Qed.

Lemma keeps_raise {A} (e : exn) : keeps_clock (@raise A e).
Proof. intros o. repeat split. Qed.

Lemma keeps_emit (ev : event) : keeps_clock (emit ev).
Proof. intros o. repeat split. Qed.

Lemma keeps_log lvl fmt args : keeps_clock (log lvl fmt args).
Proof. intros o. repeat split. Qed.

Lemma keeps_self : keeps_clock self.
Proof. intros o. repeat split. Qed.

Lemma keeps_update (f : Fftranscode -> Fftranscode) :
  (forall o, same_clock o (f o)) -> keeps_clock (update f).
Proof. intros H o. apply H. Qed.

Lemma keeps_if {A} (c : bool) (m1 m2 : M A) :
  keeps_clock m1 -> keeps_clock m2 -> keeps_clock (if c then m1 else m2).
Proof. destruct c; auto. Qed.

Create HintDb clock.
#[local] Hint Resolve keeps_ret keeps_raise keeps_emit keeps_log keeps_self
  keeps_if : clock.

Ltac clock :=
  repeat match goal with
    | |- keeps_clock (bind _ _) => apply keeps_bind; [ | intros; cbv beta ]
    | |- keeps_clock (update _) => apply keeps_update; intros; repeat split
    | |- keeps_clock (match ?x with _ => _ end) => destruct x
    | |- keeps_clock _ => solve [auto with clock]
    end.

Lemma keeps_Popen w args out e : keeps_clock (Popen_ w args out e).
Proof. unfold Popen_. clock. Qed.

Lemma keeps_get_ffencode_version w : keeps_clock (get_ffencode_version w).
Proof. unfold get_ffencode_version. clock. apply keeps_Popen. Qed.

Lemma keeps_gen_transcode_args : keeps_clock gen_transcode_args.
Proof. intros o. rewrite gen_transcode_args_run. repeat split. Qed.

Lemma keeps_transcode_start w : keeps_clock (transcode_start w).
Proof.
  unfold transcode_start. clock.
  - apply keeps_get_ffencode_version.
  - apply keeps_gen_transcode_args.
  - apply keeps_Popen.
Qed.

Lemma Popen_fresh w args out e o p :
  res (Popen_ w args out e o) = Ret p -> p = mkPopen args None O O O.
Proof.
  unfold Popen_, bind, emit, ret, raise. cbn [res obj trace].
  destruct (spawn_ok w args); cbn [res]; congruence.
Qed.

Lemma transcode_start_live (w : World) :
  ensures (transcode_start w) (fun _ o => live o 0).
Proof.
  unfold transcode_start.
  do 5 (apply ensures_then; intros).
  eapply ensures_bind; [ intros o p H; exact (Popen_fresh _ _ _ _ _ _ H) | ].
  intros p -> o u _. unfold live, bind, update. cbn. eauto.
Qed.

(** ** Turns of the loop *)

Section Turns.

Variable w : World.

Lemma live_guard (o : Fftranscode) (q : nat) :
  live o q -> num_waits o < max_waits o -> guard o = true.
Proof.
  intros [Hr _] Hlt. unfold guard. rewrite Hr.
  apply Z.ltb_lt in Hlt. now rewrite Hlt.
Qed.

(** One turn of the loop whose poll finds the child running. *)
Lemma turn_running (o : Fftranscode) (q : nat) :
  live o q -> child_status w (S q) = None ->
  exists o',
    handle_subprocess w (set_num_waits (num_waits o + 1) o)
    = mkOut (Ret tt) o' [EvPoll]
    /\ live o' (S q)
    /\ num_waits o' = num_waits o + 1 /\ max_waits o' = max_waits o
    /\ wait_interval o' = wait_interval o /\ exit_code o' = exit_code o.
Proof.
  intros (Hr & p & Hsp & Hrc & Hq) Hc.
  rewrite (handle_subprocess_run w _ p) by exact Hsp.
  unfold poll. rewrite Hrc, Hq, Hc. cbn [returncode].
  eexists. split; [reflexivity | ].
  unfold live. cbn. repeat split; eauto.
Qed.

(** One turn of the loop whose poll finds the child gone. *)
Lemma turn_exited (o : Fftranscode) (q : nat) (rc : Z) :
  live o q -> child_status w (S q) = Some rc ->
  exists o' t,
    handle_subprocess w (set_num_waits (num_waits o + 1) o)
    = mkOut (Ret tt) o' t
    /\ running o' = Some false /\ exit_code o' = Some rc
    /\ num_waits o' = num_waits o + 1 /\ max_waits o' = max_waits o
    /\ wait_interval o' = wait_interval o.
Proof.
  intros (Hr & p & Hsp & Hrc & Hq) Hc.
  rewrite (handle_subprocess_run w _ p) by exact Hsp.
  unfold poll. rewrite Hrc, Hq, Hc. cbn [returncode].
  do 2 eexists. split; [reflexivity | ]. cbn. repeat split.
Qed.

Lemma wait_turns_exit (k : nat) :
  forall (n : nat) (o : Fftranscode) (q : nat) (rc : Z),
    live o q -> (k < n)%nat -> num_waits o + Z.of_nat k < max_waits o ->
    (forall j, (q < j <= q + k)%nat -> child_status w j = None) ->
    child_status w (S (q + k)) = Some rc ->
    res (wait_turns w n o) = Ret tt
    /\ running (obj (wait_turns w n o)) = Some false
    /\ exit_code (obj (wait_turns w n o)) = Some rc
    /\ num_waits (obj (wait_turns w n o)) = num_waits o + Z.of_nat k + 1
    /\ max_waits (obj (wait_turns w n o)) = max_waits o
    /\ wait_interval (obj (wait_turns w n o)) = wait_interval o.
Proof.
  induction k as [|k IH]; intros n o q rc Hlive Hn Hmax Hnone Hsome;
    (destruct n as [|n]; [lia | ]);
    rewrite wait_turns_S by (rewrite (proj1 Hlive); discriminate);
    rewrite (live_guard o q Hlive) by lia; cbv zeta.
  - rewrite Nat.add_0_r in Hsome.
    destruct (turn_exited o q rc Hlive Hsome)
      as (o' & t & -> & Hr & He & Hnw & Hmw & Hwi).
    cbn [res obj trace].
    rewrite wait_turns_guard_false;
      [ | rewrite Hr; discriminate | unfold guard; rewrite Hr; reflexivity].
    cbn [res obj]. repeat split; auto. lia.
  - assert (Hc : child_status w (S q) = None) by (apply Hnone; lia).
    destruct (turn_running o q Hlive Hc)
      as (o' & -> & Hl & Hnw & Hmw & Hwi & He).
    cbn [res obj trace].
    destruct (IH n o' (S q) rc Hl) as (R1 & R2 & R3 & R4 & R5 & R6);
      try lia.
    + intros j Hj. apply Hnone. lia.
    + rewrite <- Hsome. f_equal. lia.
    + repeat split; auto; try congruence. lia.
Qed.

Lemma wait_turns_timeout (n : nat) :
  forall (o : Fftranscode) (q : nat),
    live o q -> Z.of_nat n = max_waits o - num_waits o ->
    (forall j, (q < j <= q + n)%nat -> child_status w j = None) ->
    res (wait_turns w n o) = Ret tt
    /\ live (obj (wait_turns w n o)) (q + n)
    /\ exit_code (obj (wait_turns w n o)) = exit_code o
    /\ num_waits (obj (wait_turns w n o)) = max_waits o
    /\ max_waits (obj (wait_turns w n o)) = max_waits o
    /\ wait_interval (obj (wait_turns w n o)) = wait_interval o.
Proof.
  induction n as [|n IH]; intros o q Hlive Hn Hnone.
  - rewrite wait_turns_O by (rewrite (proj1 Hlive); discriminate).
    cbn [res obj]. rewrite Nat.add_0_r.
    split; [reflexivity | ]. split; [exact Hlive | ].
    repeat split. lia.
  - rewrite wait_turns_S by (rewrite (proj1 Hlive); discriminate).
    rewrite (live_guard o q Hlive) by lia. cbv zeta.
    assert (Hc : child_status w (S q) = None) by (apply Hnone; lia).
    destruct (turn_running o q Hlive Hc)
      as (o' & -> & Hl & Hnw & Hmw & Hwi & He).
    cbn [res obj trace].
    destruct (IH o' (S q) Hl) as (R1 & R2 & R3 & R4 & R5 & R6); try lia.
    + intros j Hj. apply Hnone. lia.
    + replace (q + S n)%nat with (S q + n)%nat by lia.
      split; [exact R1 | ]. split; [exact R2 | ].
      repeat split; congruence.
Qed.

(** The bound of [wait_turns] never cuts the loop short: when the turns are
    used up, the guard of the [while] is false. *)
Lemma wait_turns_guard_exhausted (n : nat) :
  forall o : Fftranscode,
    max_waits o - num_waits o <= Z.of_nat n ->
    res (wait_turns w n o) = Ret tt ->
    guard (obj (wait_turns w n o)) = false.
Proof.
  induction n as [|n IH]; intros o Hn;
    (destruct (running o) as [r | ] eqn:Er;
     [ | rewrite (wait_turns_unset w _ o Er); discriminate]).
  - rewrite wait_turns_O by (rewrite Er; discriminate).
    cbn [res obj]. intros _. unfold guard.
    replace (num_waits o <? max_waits o) with false
      by (symmetry; apply Z.ltb_ge; lia).
    apply andb_false_r.
  - rewrite wait_turns_S by (rewrite Er; discriminate).
    destruct (guard o) eqn:Hg; [ | intros _; exact Hg].
    cbv zeta. destruct (sp o) as [p | ] eqn:Hsp.
    + rewrite (handle_subprocess_run w _ p) by exact Hsp.
      destruct (returncode (poll w p)); cbn [res obj trace];
        apply IH; cbn; lia.
    + unfold handle_subprocess at 1 3. unfold bind at 1 3. unfold self at 1 3.
      cbn [res obj trace sp set_num_waits]. rewrite Hsp.
      unfold bind at 1 3. unfold log at 1 3. unfold emit at 1 3.
      cbn [res obj trace].
      rewrite cancel_transcode_run. cbn [res obj trace]. discriminate.
Qed.

End Turns.

(** ** [transcode] *)

Lemma wait_loop_run (w : World) (o : Fftranscode) :
  wait_loop w o = wait_turns w (Z.to_nat (max_waits o - num_waits o)) o.
Proof.
  unfold wait_loop, bind, self. cbn [res obj trace].
  destruct (wait_turns w _ o) as [[u | e] o' t]; cbn; [destruct u | ]; reflexivity.
Qed.

Lemma bind_Ret {A B} (m : M A) (f : A -> M B) (o : Fftranscode) (a : A) :
  res (m o) = Ret a ->
  res (bind m f o) = res (f a (obj (m o)))
  /\ obj (bind m f o) = obj (f a (obj (m o))).
Proof.
  intros H. unfold bind. rewrite H. split; reflexivity.
Qed.

(** [transcode] once its start has succeeded: the loop, then the check of
    the counter. *)
Lemma transcode_after_start (w : World) (o : Fftranscode) :
  res (transcode_start w o) = Ret tt ->
  let o1 := obj (transcode_start w o) in
  let l := wait_turns w (Z.to_nat (max_waits o1 - num_waits o1)) o1 in
  res l = Ret tt ->
  res (transcode w o)
  = (if num_waits (obj l) =? max_waits (obj l)
     then Raise (elapsed_time_exceeded (obj l))
     else Ret (exit_code (obj l)))
  /\ obj (transcode w o) = obj l.
Proof.
  intros Hs o1 l Hl. rewrite transcode_split.
  destruct (bind_Ret (transcode_start w)
              (fun _ => bind (wait_loop w) (fun _ => transcode_finish))
              o tt Hs) as [E1 E2].
  rewrite E1, E2. fold o1.
  assert (Hl' : res (wait_loop w o1) = Ret tt)
    by (rewrite wait_loop_run; exact Hl).
  destruct (bind_Ret (wait_loop w) (fun _ => transcode_finish) o1 tt Hl')
    as [E3 E4].
  rewrite E3, E4, wait_loop_run. fold l.
  unfold transcode_finish, bind, self, raise, ret, elapsed_time_exceeded.
  cbn [res obj trace].
  destruct (num_waits (obj l) =? max_waits (obj l)); cbn [res obj trace];
    split; reflexivity.
Qed.

Lemma transcode_start_clock (w : World) (o : Fftranscode) :
  same_clock o (obj (transcode_start w o)).
Proof. apply keeps_transcode_start. Qed.

(** The child is first seen gone by poll [k + 1], and the counter allows
    that poll: the exit code is captured; it is returned unless that poll was
    the last one the counter allows, in which case the failure is raised. *)
Lemma transcode_child_exits (w : World) (o : Fftranscode) (k : nat) (rc : Z) :
  res (transcode_start w o) = Ret tt ->
  (forall j, (0 < j <= k)%nat -> child_status w j = None) ->
  child_status w (S k) = Some rc ->
  num_waits o + Z.of_nat k < max_waits o ->
  res (transcode w o)
  = (if num_waits o + Z.of_nat k + 1 =? max_waits o
     then Raise (elapsed_time_exceeded o)
     else Ret (Some rc))
  /\ exit_code (obj (transcode w o)) = Some rc
  /\ running (obj (transcode w o)) = Some false.
Proof.
  intros Hs Hnone Hsome Hlt.
  pose proof (transcode_start_live w o tt Hs) as Hlive.
  destruct (transcode_start_clock w o) as (Hnw & Hmw & Hwi).
  cbv beta in Hlive.
  destruct (wait_turns_exit w k
              (Z.to_nat (max_waits (obj (transcode_start w o))
                         - num_waits (obj (transcode_start w o))))
              (obj (transcode_start w o)) 0 rc Hlive)
    as (R1 & R2 & R3 & R4 & R5 & R6); try (rewrite ?Hnw, ?Hmw; lia); auto.
  destruct (transcode_after_start w o Hs R1) as [T1 T2].
  rewrite T1, T2, R2, R3, R4, R5. unfold elapsed_time_exceeded.
  rewrite R5, R6, Hnw, Hmw, Hwi. repeat split.
Qed.

(** The child is still running at every poll the counter allows: the failure
    is raised. *)
Lemma transcode_child_outlives (w : World) (o : Fftranscode) :
  res (transcode_start w o) = Ret tt ->
  num_waits o <= max_waits o ->
  (forall j, (0 < j <= Z.to_nat (max_waits o - num_waits o))%nat ->
             child_status w j = None) ->
  res (transcode w o) = Raise (elapsed_time_exceeded o)
  /\ running (obj (transcode w o)) = Some true.
Proof.
  intros Hs Hle Hnone.
  pose proof (transcode_start_live w o tt Hs) as Hlive.
  destruct (transcode_start_clock w o) as (Hnw & Hmw & Hwi).
  cbv beta in Hlive.
  destruct (wait_turns_timeout w
              (Z.to_nat (max_waits (obj (transcode_start w o))
                         - num_waits (obj (transcode_start w o))))
              (obj (transcode_start w o)) 0 Hlive)
    as (R1 & R2 & R3 & R4 & R5 & R6).
  - rewrite Hnw, Hmw. lia.
  - rewrite Hnw, Hmw. exact Hnone.
  - destruct (transcode_after_start w o Hs R1) as [T1 T2].
    rewrite T1, T2. split; [ | exact (proj1 R2)].
    rewrite R4, R5, Z.eqb_refl. unfold elapsed_time_exceeded.
    rewrite R5, R6, Hmw, Hwi. reflexivity.
Qed.

(** ** The last poll *)

Lemma start_movie (status : nat -> option Z) :
  res (transcode_start (world_of banner_6_0 status) movie_start) = Ret tt.
Proof. vm_compute. reflexivity. Qed.

(** A failure of [transcode] that [except Exception] catches ends [main]:
    the handler cancels without exiting and raises it again. *)
Lemma main_transcode_raises (w : World) (options : Options) (e : exn) :
  opt_input_file options <> [] ->
  res (transcode w (object_of options)) = Raise e ->
  is_Exception e = true ->
  snd (main w options) = e.
Proof.
  intros Hin Hr He. unfold main.
  destruct (opt_input_file options) as [|c s] eqn:Ei; [congruence | ].
  cbn [List.length Nat.ltb Nat.leb].
  unfold object_of in Hr. rewrite Ei in Hr. unfold init in Hr |- *.
  cbn [fst] in Hr. rewrite Hr, He. cbn [snd].
  rewrite cancel_transcode_run. reflexivity.
Qed.

(** A run that returns ends [main] with the value returned as exit status. *)
Lemma main_transcode_returns (w : World) (options : Options) (c : option Z) :
  opt_input_file options <> [] ->
  res (transcode w (object_of options)) = Ret c ->
  snd (main w options) = SystemExit c.
Proof.
  intros Hin Hr. unfold main.
  destruct (opt_input_file options) as [|x s] eqn:Ei; [congruence | ].
  cbn [List.length Nat.ltb Nat.leb].
  unfold object_of in Hr. rewrite Ei in Hr. unfold init in Hr |- *.
  cbn [fst] in Hr. rewrite Hr. reflexivity.
Qed.

(** The child of the running example is seen gone by poll 604800, the last
    one the counter allows: its status is captured, and the failure is raised
    all the same. *)
Lemma transcode_exit_on_last_poll (rc : Z) :
  res (transcode (world_of banner_6_0 (exits_at 604800 rc)) movie_start)
  = Raise (Exception "Transcode took longer tham max %s seconds."
             [VInt 604800])
  /\ exit_code
       (obj (transcode (world_of banner_6_0 (exits_at 604800 rc))
               movie_start))
     = Some rc
  /\ running
       (obj (transcode (world_of banner_6_0 (exits_at 604800 rc))
               movie_start))
     = Some false.
Proof.
  destruct (transcode_child_exits (world_of banner_6_0 (exits_at 604800 rc))
              movie_start (Z.to_nat 604799) rc) as (R1 & R2 & R3).
  - apply start_movie.
  - intros j Hj. cbn [child_status world_of]. unfold exits_at.
    destruct (Z.leb_spec 604800 (Z.of_nat j)); [lia | reflexivity].
  - cbn [child_status world_of]. unfold exits_at.
    destruct (Z.leb_spec 604800 (Z.of_nat (S (Z.to_nat 604799))));
      [reflexivity | lia].
  - change (num_waits movie_start) with 0.
    change (max_waits movie_start) with 604800. lia.
  - split; [ | split; assumption].
    rewrite R1. change (num_waits movie_start) with 0.
    change (max_waits movie_start) with 604800.
    replace (0 + Z.of_nat (Z.to_nat 604799) + 1) with 604800 by lia.
    reflexivity.
Qed.

(** The same child seen gone one poll earlier: the status is returned. *)
Lemma transcode_exit_before_last_poll (rc : Z) :
  res (transcode (world_of banner_6_0 (exits_at 604799 rc)) movie_start)
  = Ret (Some rc).
Proof.
  destruct (transcode_child_exits (world_of banner_6_0 (exits_at 604799 rc))
              movie_start (Z.to_nat 604798) rc) as (R1 & _).
  - apply start_movie.
  - intros j Hj. cbn [child_status world_of]. unfold exits_at.
    destruct (Z.leb_spec 604799 (Z.of_nat j)); [lia | reflexivity].
  - cbn [child_status world_of]. unfold exits_at.
    destruct (Z.leb_spec 604799 (Z.of_nat (S (Z.to_nat 604798))));
      [reflexivity | lia].
  - change (num_waits movie_start) with 0.
    change (max_waits movie_start) with 604800. lia.
  - rewrite R1. change (num_waits movie_start) with 0.
    change (max_waits movie_start) with 604800.
    replace (0 + Z.of_nat (Z.to_nat 604798) + 1) with 604799 by lia.
    reflexivity.
Qed.

(** A child that no poll finds gone: the failure is raised with the child
    still marked as running. *)
Lemma transcode_never_exits :
  res (transcode (world_of banner_6_0 (fun _ => None)) movie_start)
  = Raise (Exception "Transcode took longer tham max %s seconds."
             [VInt 604800])
  /\ running (obj (transcode (world_of banner_6_0 (fun _ => None))
                     movie_start))
     = Some true.
Proof.
  destruct (transcode_child_outlives (world_of banner_6_0 (fun _ => None))
              movie_start) as (R1 & R2).
  - apply start_movie.
  - change (num_waits movie_start) with 0.
    change (max_waits movie_start) with 604800. lia.
  - reflexivity.
  - split; [exact R1 | exact R2].
Qed.

(** C2, on the code: the child exits with status 0 and is seen gone by poll
    604800; [transcode] has captured the status and is no longer running, and
    it raises the elapsed-time failure. *)
Theorem exit_on_last_poll_raises_timeout :
  res (transcode (world_of banner_6_0 (exits_at 604800 0)) movie_start)
  = Raise (Exception "Transcode took longer tham max %s seconds."
             [VInt 604800])
  /\ exit_code
       (obj (transcode (world_of banner_6_0 (exits_at 604800 0)) movie_start))
     = Some 0
  /\ running
       (obj (transcode (world_of banner_6_0 (exits_at 604800 0)) movie_start))
     = Some false.
Proof.
  destruct (transcode_exit_on_last_poll 0) as (Hraise & Hcode & Hrun).
  split; [exact Hraise | ]. split; [exact Hcode | exact Hrun].
Qed.

(** C3, on the code: the child exits with status 137 and is seen gone by
    poll 604800; [transcode] does not return 137 but raises, and [main] ends
    with that failure instead of exit status 137. *)
Theorem exit_137_on_last_poll_not_returned :
  res (transcode (world_of banner_6_0 (exits_at 604800 137)) movie_start)
  = Raise (Exception "Transcode took longer tham max %s seconds."
             [VInt 604800])
  /\ exit_code
       (obj (transcode (world_of banner_6_0 (exits_at 604800 137))
               movie_start))
     = Some 137
  /\ snd (main (world_of banner_6_0 (exits_at 604800 137)) movie_options)
     = Exception "Transcode took longer tham max %s seconds." [VInt 604800].
Proof.
  destruct (transcode_exit_on_last_poll 137) as (R1 & R2 & _).
  split; [exact R1 | ]. split; [exact R2 | ].
  apply main_transcode_raises.
  - discriminate.
  - exact R1.
  - reflexivity.
Qed.

(** A child that exits with status 137 one poll earlier ends [main] with
    exit status 137. *)
Example exit_137_before_last_poll :
  snd (main (world_of banner_6_0 (exits_at 604799 137)) movie_options)
  = SystemExit (Some 137).
Proof.
  apply main_transcode_returns; [discriminate | ].
  exact (transcode_exit_before_last_poll 137).
Qed.

(** ** Instances *)

Lemma tune_flag_exactly_once_film :
  exists argv,
    res (gen_transcode_args film_object) = Ret argv
    /\ (tune film_object = py "" -> ~ In (py "-tune") argv)
    /\ (tune film_object <> py "" ->
        count_occ str_eq_dec argv (py "-tune") = 1%nat
        /\ exists pre post,
             argv = pre ++ py "-tune" :: tune film_object :: post
             /\ ~ In (py "-tune") pre /\ ~ In (py "-tune") post).
Proof.
  apply (tune_flag_exactly_once film_object).
  vm_compute. intuition discriminate.
Defined.

Lemma main_missing_input_file_default :
  main silent_world default_options
  = (verbose_logging (opt_verbose default_options)
     ++ [EvPrint (py "ERROR: input file must be set.")],
     SystemExit (Some 1))
  /\ forall args out err,
       ~ In (EvPopen args out err) (fst (main silent_world default_options)).
Proof.
  apply (main_missing_input_file silent_world default_options).
  reflexivity.
Defined.

Lemma whitespace_extra_blank :
  res (gen_transcode_args blank_extra_object)
  = res (gen_transcode_args (with_extra (py "") blank_extra_object)).
Proof.
  apply (whitespace_extra_adds_nothing blank_extra_object).
  - vm_compute. discriminate.
  - repeat constructor.
Defined.

(** * Further properties of the builder, the version query and the
    supervisor *)

Lemma generated_name_nonempty (o : Fftranscode) :
  str_eqb (generated_name o) (py "") = false.
Proof.
  apply str_eqb_neq. unfold generated_name. intros E.
  apply (f_equal (@List.length char)) in E.
  rewrite !length_app in E. vm_compute (List.length (py ".mkv")) in E.
  vm_compute (List.length (py "")) in E. lia.
Qed.

Lemma resolved_output_nonempty (o : Fftranscode) :
  str_eqb (resolved_output o) (py "") = false.
Proof.
  unfold resolved_output.
  destruct (str_eqb (output_file o) (py "")) eqn:E;
    [apply generated_name_nonempty | exact E].
Qed.

(** X1: argv starts with [nice] followed by [ffmpeg] when the object is niced,
    and with [ffmpeg] otherwise. *)
Theorem argv_first_token (o : Fftranscode) :
  exists rest,
    res (gen_transcode_args o)
    = Ret (if niced o
           then py "nice" :: py "ffmpeg" :: rest
           else py "ffmpeg" :: rest).
Proof.
  rewrite gen_transcode_args_run. cbn [res]. unfold argv_front, base_args.
  destruct (niced o); cbn [app]; eexists; reflexivity.
Qed.

(** X2: the order of argv: the optional [nice], the fixed flags with the input
    and the codec values, the tune flag and its value when a tune is set, the
    tokens of [extra], [-nostdin] unless interactive, the output path. *)
Theorem argv_layout (o : Fftranscode) :
  res (gen_transcode_args o)
  = Ret ((if niced o then [py "nice"] else [])
         ++ [ py "ffmpeg"; py "-hide_banner"; py "-n"; py "-i"; input_file o;
              py "-map"; py "0"; py "-codec:a"; py "copy"; py "-codec:s";
              py "copy"; py "-codec:v"; codec_lib o; py "-profile:v";
              profile o; py "-level"; level o; py "-preset"; preset o;
              py "-crf"; crf o ]
         ++ (match tune o with [] => [] | _ :: _ => [py "-tune"; tune o] end)
         ++ split (extra o)
         ++ (if interactive o then [] else [py "-nostdin"])
         ++ [match output_file o with
             | [] => generated_name o
             | _ :: _ => output_file o
             end]).
Proof.
  rewrite gen_transcode_args_run. cbn [res].
  unfold argv_front, base_args, tune_args, resolved_output.
  rewrite py_empty.
  assert (Hx : (if str_eqb (extra o) [] then [] else split (extra o))
               = split (extra o)).
  { destruct (extra o); reflexivity. }
  rewrite Hx.
  destruct (tune o), (output_file o); cbn [str_eqb];
    rewrite <- ?app_assoc; reflexivity.
Qed.

(** X3: building the arguments a second time returns the same argv, leaves
    the object as the first call left it and logs nothing: the name generated
    by the first call is kept. *)
Theorem gen_transcode_args_twice (o : Fftranscode) :
  gen_transcode_args (obj (gen_transcode_args o))
  = mkOut (res (gen_transcode_args o)) (obj (gen_transcode_args o)) [].
Proof.
  rewrite (gen_transcode_args_run o). cbn [res obj].
  rewrite gen_transcode_args_run.
  assert (Hr : resolved_output (set_output_file (resolved_output o) o)
               = resolved_output o).
  { unfold resolved_output at 1. cbn [output_file set_output_file].
    rewrite resolved_output_nonempty. reflexivity. }
  rewrite Hr. cbn [output_file set_output_file].
  rewrite resolved_output_nonempty. reflexivity.
Qed.

Lemma split_from_tokens (s : str) :
  forall cur, Forall (fun c => isspace c = false) cur ->
              Forall token (split_from cur s).
Proof.
  induction s as [|c s IH]; intros cur Hcur; cbn [split_from].
  - destruct cur; constructor; [ | constructor].
    split; [discriminate | exact Hcur].
  - destruct (isspace c) eqn:Hc.
    + destruct cur as [|x cur].
      * apply IH. constructor.
      * constructor; [split; [discriminate | exact Hcur] | ].
        apply IH. constructor.
    + apply IH. apply Forall_app. split; [exact Hcur | ].
      constructor; [exact Hc | constructor].
Qed.

Lemma split_from_run (t : str) :
  Forall (fun c => isspace c = false) t ->
  forall cur s, split_from cur (t ++ s) = split_from (cur ++ t) s.
Proof.
  induction 1 as [|c t Hc _ IH]; intros cur s.
  - now rewrite app_nil_r.
  - cbn [app split_from]. rewrite Hc, IH, <- app_assoc. reflexivity.
Qed.

Lemma split_join_from (toks : list str) :
  Forall token toks ->
  split_from [] (join_spaces toks) = toks.
Proof.
  induction 1 as [|t toks [Hne Hws] Htoks IH]; [reflexivity | ].
  destruct toks as [|t' toks'].
  - cbn [join_spaces]. rewrite <- (app_nil_r t) at 1.
    rewrite (split_from_run t Hws). cbn [app split_from].
    destruct t; [congruence | reflexivity].
  - cbn [join_spaces] in *. rewrite (split_from_run t Hws).
    cbn [app split_from]. change (isspace 32%N) with true. cbv iota.
    destruct t; [congruence | ]. rewrite IH. reflexivity.
Qed.

(** X4: every token that [split] produces is non-empty and free of
    whitespace, so an argument with a blank inside cannot be passed through
    [extra]. *)
Theorem split_tokens (s : str) : Forall token (split s).
Proof. unfold split. apply split_from_tokens. constructor. Qed.

(** X5: tokens that are non-empty and free of whitespace, joined by single
    spaces, are what [split] gives back. *)
Theorem split_join (toks : list str) :
  Forall token toks -> split (join_spaces toks) = toks.
Proof. intros H. unfold split. apply split_join_from. exact H. Qed.

Lemma split_join_flags :
  split (join_spaces [py "-x"; py "1"; py "-y"; py "2"])
  = [py "-x"; py "1"; py "-y"; py "2"].
Proof.
  apply (split_join [py "-x"; py "1"; py "-y"; py "2"]).
  repeat constructor; discriminate.
Defined.

Lemma strip_last4_app (stem ext : str) :
  List.length ext = 4%nat -> strip_last4 (stem ++ ext) = stem.
Proof.
  intros H. unfold strip_last4. rewrite length_app, H.
  replace (List.length stem + 4 - 4)%nat with (List.length stem + 0)%nat by lia.
  rewrite firstn_app_2. cbn [firstn]. apply app_nil_r.
Qed.

Lemma strip_last4_short (s : str) :
  (List.length s <= 4)%nat -> strip_last4 s = [].
Proof.
  intros H. unfold strip_last4.
  replace (List.length s - 4)%nat with 0%nat by lia. reflexivity.
Qed.

(** X6: for an input path that is a stem followed by four characters, the
    generated name is the stem, then [ - ffmpeg:], and ends in [.mkv]. *)
Theorem gen_output_file_name_stem (o : Fftranscode) (stem ext : str) :
  input_file o = stem ++ ext ->
  List.length ext = 4%nat ->
  exists rest,
    res (gen_output_file_name o) = Ret (stem ++ py " - ffmpeg:" ++ rest)
    /\ exists body, rest = body ++ py ".mkv".
Proof.
  intros Hi He. rewrite gen_output_file_name_run. cbn [res].
  unfold generated_name. rewrite Hi, (strip_last4_app stem ext He).
  eexists. split.
  - rewrite <- !app_assoc. reflexivity.
  - eexists. rewrite !app_assoc. reflexivity.
Qed.

(** X7: for an input path of at most four characters the slice is empty and
    the generated name starts with [ - ffmpeg:]. *)
Theorem gen_output_file_name_short_input (o : Fftranscode) :
  (List.length (input_file o) <= 4)%nat ->
  exists rest,
    res (gen_output_file_name o) = Ret (py " - ffmpeg:" ++ rest).
Proof.
  intros H. rewrite gen_output_file_name_run. cbn [res].
  unfold generated_name. rewrite (strip_last4_short _ H).
  eexists. cbn [app]. rewrite <- !app_assoc. reflexivity.
Qed.

(** X8: while no version is stored, the name is generated with the text
    [None] in the place of the version. *)
Theorem gen_output_file_name_without_version (o : Fftranscode) :
  ffmpeg_ver o = None ->
  exists rest,
    res (gen_output_file_name o)
    = Ret (strip_last4 (input_file o) ++ py " - ffmpeg:None_c:" ++ rest).
Proof.
  intros H. rewrite gen_output_file_name_run. cbn [res].
  unfold generated_name. rewrite H. cbn [percent_s].
  eexists. rewrite <- !app_assoc.
  change (py " - ffmpeg:None_c:") with (py " - ffmpeg:" ++ py "None" ++ py "_c:").
  rewrite <- !app_assoc. reflexivity.
Qed.

Lemma byte_eqb_eq (x y : byte) : Byte.eqb x y = true <-> x = y.
Proof.
  split.
  - apply Byte.byte_dec_bl.
  - apply Byte.byte_dec_lb.
Qed.

Lemma bytes_prefixb_app (p r : bytes) : bytes_prefixb p (p ++ r) = true.
Proof.
  induction p as [|x p IH]; [reflexivity | ].
  cbn [app bytes_prefixb]. rewrite IH, (proj2 (byte_eqb_eq x x) eq_refl).
  reflexivity.
Qed.

Lemma bytes_prefixb_true (p l : bytes) :
  bytes_prefixb p l = true -> exists r, l = p ++ r.
Proof.
  revert l; induction p as [|x p IH]; intros l H.
  - exists l. reflexivity.
  - destruct l as [|y l]; [discriminate | ]. cbn [bytes_prefixb] in H.
    apply andb_true_iff in H. destruct H as [Hxy Hp].
    apply byte_eqb_eq in Hxy. subst y.
    destruct (IH l Hp) as [r ->]. exists r. reflexivity.
Qed.

Lemma first_line_split (l : bytes) :
  ~ In newline (first_line l) /\ exists tl, l = first_line l ++ tl.
Proof.
  induction l as [|c l [IH1 [tl IH2]]]; cbn [first_line].
  - split; [tauto | exists []; reflexivity].
  - destruct (Byte.eqb c newline) eqn:E.
    + split; [tauto | exists (c :: l); reflexivity].
    + split.
      * intros [H | H]; [ | tauto]. subst c.
        rewrite (proj2 (byte_eqb_eq newline newline) eq_refl) in E.
        discriminate.
      * exists tl. cbn [app]. congruence.
Qed.

Lemma first_line_app (a l : bytes) :
  ~ In newline a -> first_line (a ++ l) = a ++ first_line l.
Proof.
  induction a as [|c a IH]; intros H; [reflexivity | ].
  cbn [app first_line].
  destruct (Byte.eqb c newline) eqn:E.
  - apply byte_eqb_eq in E. subst c. exfalso. apply H. left. reflexivity.
  - rewrite IH; [reflexivity | ]. intros Hin. apply H. right. exact Hin.
Qed.

Lemma last_start_sound (pat l : bytes) (i : nat) :
  last_start pat l = Some i ->
  (i <= List.length l)%nat /\ exists r, l = firstn i l ++ pat ++ r.
Proof.
  revert i; induction l as [|c l IH]; intros i; cbn [last_start].
  - destruct (bytes_prefixb pat []) eqn:E; [ | discriminate].
    intros [= <-]. split; [lia | ].
    destruct (bytes_prefixb_true _ _ E) as [r Hr]. exists r. exact Hr.
  - destruct (last_start pat l) as [j | ] eqn:Ej.
    + intros [= <-]. destruct (IH j eq_refl) as [Hj [r Hr]].
      split; [cbn [List.length]; lia | ].
      exists r. cbn [firstn app]. congruence.
    + destruct (bytes_prefixb pat (c :: l)) eqn:E; [ | discriminate].
      intros [= <-]. split; [lia | ].
      destruct (bytes_prefixb_true _ _ E) as [r Hr]. exists r. exact Hr.
Qed.

Lemma last_start_ge (pat a r : bytes) :
  exists i, last_start pat (a ++ pat ++ r) = Some i
            /\ (List.length a <= i)%nat.
Proof.
  induction a as [|x a (i & Hi & Hle)]; cbn [app].
  - destruct (pat ++ r) as [|c l] eqn:E; cbn [last_start].
    + destruct pat; [ | discriminate]. exists 0%nat. split; [reflexivity | cbn; lia].
    + destruct (last_start pat l) as [j | ].
      * exists (S j). split; [reflexivity | cbn; lia].
      * rewrite <- E, bytes_prefixb_app. exists 0%nat.
        split; [reflexivity | cbn; lia].
  - cbn [last_start]. rewrite Hi. exists (S i).
    split; [reflexivity | cbn [List.length]; lia].
Qed.

Lemma skipn_app_exact {A} (a b : list A) : skipn (List.length a) (a ++ b) = b.
Proof. induction a; [reflexivity | exact IHa]. Qed.

Lemma version_group_inv (buff g : bytes) :
  version_group buff = Some g ->
  g <> [] /\ ~ In newline g
  /\ exists rest,
       buff = pyb "ffmpeg version " ++ g ++ pyb " Copyright" ++ rest.
Proof.
  unfold version_group. cbv zeta.
  destruct (bytes_prefixb (pyb "ffmpeg version ") buff) eqn:Hp;
    [ | discriminate].
  destruct (bytes_prefixb_true _ _ Hp) as [b1 ->].
  rewrite skipn_app_exact.
  destruct (first_line_split b1) as [Hnl [tl Htl]].
  destruct (first_line b1) as [|c rest0] eqn:Hfl; [discriminate | ].
  destruct (last_start (pyb " Copyright") rest0) as [i | ] eqn:Hi;
    [ | discriminate].
  intros [= <-].
  destruct (last_start_sound _ _ _ Hi) as [Hle [r Hr]].
  split; [discriminate | ]. split.
  - intros [H | H]; apply Hnl; [left; exact H | right].
    rewrite Hr. apply in_or_app. left. exact H.
  - exists (r ++ tl). rewrite Htl. f_equal. cbn [app]. f_equal.
    rewrite Hr at 1. rewrite <- !app_assoc. reflexivity.
Qed.

Lemma version_group_matches (g rest : bytes) :
  g <> [] -> ~ In newline g ->
  exists g',
    version_group (pyb "ffmpeg version " ++ g ++ pyb " Copyright" ++ rest)
    = Some g'
    /\ (List.length g <= List.length g')%nat.
Proof.
  intros Hne Hnl. unfold version_group. cbv zeta.
  rewrite bytes_prefixb_app, skipn_app_exact.
  rewrite (first_line_app g _ Hnl).
  rewrite (first_line_app (pyb " Copyright") rest)
    by (vm_compute; intuition discriminate).
  destruct g as [|c g0]; [congruence | ]. cbn [app].
  destruct (last_start_ge (pyb " Copyright") g0 (first_line rest))
    as (i & Hi & Hle).
  rewrite Hi. eexists. split; [reflexivity | ].
  destruct (last_start_sound _ _ _ Hi) as [Hlen _].
  cbn [List.length]. rewrite length_firstn. lia.
Qed.

(** X9: when the pattern matches, the output is [ffmpeg version ], the group,
    [ Copyright] and a remainder; the group is not empty and holds no
    newline. *)
Theorem version_group_sound (buff g : bytes) :
  version_group buff = Some g ->
  g <> [] /\ ~ In newline g
  /\ exists rest,
       buff = pyb "ffmpeg version " ++ g ++ pyb " Copyright" ++ rest.
Proof.
  intros H. destruct (version_group_inv buff g H) as (Hne & Hnl & rest & Hb).
  split; [exact Hne | ]. split; [exact Hnl | ]. exists rest. exact Hb.
Qed.

(** X10: an output that starts with [ffmpeg version ], a non-empty run without
    newline and [ Copyright] is matched, and the group found is at least as
    long as that run (the group is greedy). *)
Theorem version_group_complete (g rest : bytes) :
  g <> [] -> ~ In newline g ->
  exists g',
    version_group (pyb "ffmpeg version " ++ g ++ pyb " Copyright" ++ rest)
    = Some g'
    /\ (List.length g <= List.length g')%nat.
Proof.
  intros Hne Hnl.
  destruct (version_group_matches g rest Hne Hnl) as (g' & Hg & Hlen).
  exists g'. split; [exact Hg | exact Hlen].
Qed.

Lemma utf8_decode_ascii (l : list N) :
  Forall (fun x => (x < 128)%N) l -> utf8_decode l = Some l.
Proof.
  induction 1 as [|x l Hx _ IH]; [reflexivity | ].
  cbn [utf8_decode]. apply N.ltb_lt in Hx. rewrite Hx, IH. reflexivity.
Qed.

(** X11: bytes below 128 decode to the code points of the same values. *)
Theorem decode_utf8_ascii (b : bytes) :
  Forall ascii_byte b -> decode_utf8 b = Some (map Byte.to_N b).
Proof.
  intros H. unfold decode_utf8. apply utf8_decode_ascii.
  apply Forall_map. exact H.
Qed.

Lemma get_ffencode_version_hit (w : World) (o : Fftranscode) (g : bytes)
    (v : str) :
  spawn_ok w [py "ffmpeg"; py "-version"] = true ->
  version_group (version_stdout w) = Some g ->
  decode_utf8 g = Some v ->
  get_ffencode_version w o
  = mkOut (Ret tt) (set_ffmpeg_ver (Some v) o)
      [EvPopen [py "ffmpeg"; py "-version"] PIPE false;
       EvLog INFO "ffmpeg version: %s" [VStr v]].
Proof.
  intros Hs Hg Hd.
  unfold get_ffencode_version, Popen_, bind, emit, log, raise, ret, update.
  cbn [res obj trace]. rewrite Hs. cbn [res obj trace]. rewrite Hg, Hd.
  reflexivity.
Qed.

(** X12: the three ends of the version query once the engine could be run: a
    match that decodes stores and logs the version; a match that does not
    decode raises [UnicodeDecodeError]; a miss raises [UnboundLocalError];
    the two failures leave the object as it was and log nothing. *)
Theorem get_ffencode_version_outcomes (w : World) (o : Fftranscode) :
  spawn_ok w [py "ffmpeg"; py "-version"] = true ->
  get_ffencode_version w o
  = match version_group (version_stdout w) with
    | Some g =>
        match decode_utf8 g with
        | Some v =>
            mkOut (Ret tt) (set_ffmpeg_ver (Some v) o)
              [EvPopen [py "ffmpeg"; py "-version"] PIPE false;
               EvLog INFO "ffmpeg version: %s" [VStr v]]
        | None =>
            mkOut (Raise UnicodeDecodeError) o
              [EvPopen [py "ffmpeg"; py "-version"] PIPE false]
        end
    | None =>
        mkOut (Raise (UnboundLocalError "ver")) o
          [EvPopen [py "ffmpeg"; py "-version"] PIPE false]
    end.
Proof.
  intros Hs.
  unfold get_ffencode_version, Popen_, bind, emit, log, raise, ret, update.
  cbn [res obj trace]. rewrite Hs. cbn [res obj trace].
  destruct (version_group (version_stdout w)) as [g | ];
    [ | reflexivity].
  destruct (decode_utf8 g); reflexivity.
Qed.

(** X13: for an output made of bytes below 128 that starts with
    [ffmpeg version ], a non-empty run without newline and [ Copyright], the
    version query returns and stores a version at least as long as that
    run. *)
Theorem ascii_banner_detected
    (w : World) (o : Fftranscode) (g rest : bytes) :
  spawn_ok w [py "ffmpeg"; py "-version"] = true ->
  version_stdout w = pyb "ffmpeg version " ++ g ++ pyb " Copyright" ++ rest ->
  g <> [] -> ~ In newline g -> Forall ascii_byte (version_stdout w) ->
  exists v,
    res (get_ffencode_version w o) = Ret tt
    /\ ffmpeg_ver (obj (get_ffencode_version w o)) = Some v
    /\ (List.length g <= List.length v)%nat.
Proof.
  intros Hs Hb Hne Hnl Hascii.
  destruct (version_group_matches g rest Hne Hnl) as (g' & Hg' & Hlen).
  rewrite <- Hb in Hg'.
  destruct (version_group_inv _ _ Hg') as (_ & _ & rest' & Hb').
  assert (Ha : Forall ascii_byte g').
  { rewrite Hb' in Hascii. apply Forall_app in Hascii.
    destruct Hascii as [_ Hascii]. apply Forall_app in Hascii. tauto. }
  assert (Hd : decode_utf8 g' = Some (map Byte.to_N g')).
  { unfold decode_utf8. apply utf8_decode_ascii. apply Forall_map. exact Ha. }
  rewrite (get_ffencode_version_hit w o g' (map Byte.to_N g') Hs Hg' Hd).
  exists (map Byte.to_N g'). cbn [res obj ffmpeg_ver set_ffmpeg_ver].
  rewrite length_map. auto.
Qed.

Lemma bind_run_ret {A B} (m : M A) (f : A -> M B) (o o' : Fftranscode)
    (a : A) (t : list event) :
  m o = mkOut (Ret a) o' t ->
  bind m f o = mkOut (res (f a o')) (obj (f a o')) (t ++ trace (f a o')).
Proof. intros H. unfold bind. rewrite H. reflexivity. Qed.

Lemma bind_run_raise {A B} (m : M A) (f : A -> M B) (o o' : Fftranscode)
    (e : exn) (t : list event) :
  m o = mkOut (Raise e) o' t -> bind m f o = mkOut (Raise e) o' t.
Proof. intros H. unfold bind. rewrite H. reflexivity. Qed.

Lemma transcode_start_run (w : World) (o : Fftranscode) (g : bytes) (v : str) :
  (str_eqb (subprocess_out o) (py "-") = false ->
   open_ok w (subprocess_out o) = true) ->
  spawn_ok w [py "ffmpeg"; py "-version"] = true ->
  version_group (version_stdout w) = Some g ->
  decode_utf8 g = Some v ->
  transcode_start w o
  = if spawn_ok w (argv_of (set_ffmpeg_ver (Some v) o))
    then mkOut (Ret tt) (started o v) (start_events o v)
    else mkOut
           (Raise (OSError
                     (spawn_error w (argv_of (set_ffmpeg_ver (Some v) o)))))
           (set_output_file (resolved_output (set_ffmpeg_ver (Some v) o))
              (set_ffmpeg_ver (Some v) o))
           (start_events o v).
Proof.
  intros Ho Hs Hg Hd. unfold transcode_start.
  unfold bind at 1. unfold self at 1. cbn [res obj trace app].
  set (X := if negb (str_eqb (subprocess_out o) (py "-")) then _ else _).
  assert (HX : X o = mkOut (Ret (output_target o)) o (output_events o)).
  { subst X. unfold output_target, output_events.
    destruct (str_eqb (subprocess_out o) (py "-")) eqn:E; cbn [negb].
    - reflexivity.
    - unfold bind, emit, log, ret, raise. cbn [res obj trace].
      rewrite (Ho eq_refl). reflexivity. }
  rewrite (bind_run_ret _ _ _ _ _ _ HX).
  rewrite (bind_run_ret _ _ _ _ _ _
             (get_ffencode_version_hit w o g v Hs Hg Hd)).
  rewrite (bind_run_ret _ _ _ _ _ _
             (gen_transcode_args_run (set_ffmpeg_ver (Some v) o))).
  fold (argv_of (set_ffmpeg_ver (Some v) o)).
  unfold bind, log, emit, Popen_, update, ret, raise. cbn [res obj trace].
  unfold start_events, started.
  cbn [output_file set_ffmpeg_ver subprocess_out].
  destruct (spawn_ok w (argv_of (set_ffmpeg_ver (Some v) o)));
    cbn [res obj trace];
    destruct (str_eqb (output_file o) (py ""));
    rewrite <- ?app_assoc; cbn [app]; rewrite ?app_nil_r; reflexivity.
Qed.

Lemma count_app (f : event -> bool) (a b : list event) :
  count f (a ++ b) = (count f a + count f b)%nat.
Proof. unfold count. rewrite filter_app, length_app. reflexivity. Qed.

Lemma no_process_call_app (a b : list event) :
  no_process_call a -> no_process_call b -> no_process_call (a ++ b).
Proof.
  unfold no_process_call. intros Ha Hb. rewrite forallb_app, Ha, Hb.
  reflexivity.
Qed.

Lemma counts_step (x : Z) (ht rt : list event) :
  count is_sleep ht = 0%nat -> count is_poll ht = 1%nat ->
  no_process_call ht ->
  count is_sleep (EvSleep x :: ht ++ rt) = S (count is_sleep rt)
  /\ count is_poll (EvSleep x :: ht ++ rt) = S (count is_poll rt)
  /\ (no_process_call rt -> no_process_call (EvSleep x :: ht ++ rt)).
Proof.
  intros Hs Hp Hn.
  change (EvSleep x :: ht ++ rt) with ([EvSleep x] ++ ht ++ rt).
  rewrite !count_app, Hs, Hp. repeat split.
  intros Hr. apply no_process_call_app; [reflexivity | ].
  apply no_process_call_app; assumption.
Qed.

Section Counting.

Variable w : World.

Lemma wait_turns_counts (n : nat) :
  forall o : Fftranscode,
    sp o <> None -> running o <> None ->
    res (wait_turns w n o) = Ret tt
    /\ sp (obj (wait_turns w n o)) <> None
    /\ running (obj (wait_turns w n o)) <> None
    /\ max_waits (obj (wait_turns w n o)) = max_waits o
    /\ num_waits (obj (wait_turns w n o))
       = num_waits o + Z.of_nat (count is_sleep (trace (wait_turns w n o)))
    /\ count is_poll (trace (wait_turns w n o))
       = count is_sleep (trace (wait_turns w n o))
    /\ no_process_call (trace (wait_turns w n o))
    /\ (num_waits o <= max_waits o ->
        num_waits (obj (wait_turns w n o)) <= max_waits o).
Proof.
  induction n as [|n IH]; intros o Hsp Hrun.
  - rewrite wait_turns_O by exact Hrun. cbn [res obj trace].
    unfold count. cbn.
    repeat split; auto; lia.
  - rewrite wait_turns_S by exact Hrun. destruct (guard o) eqn:Hg.
    + cbv zeta. destruct (sp o) as [p | ] eqn:Ep; [ | congruence].
      rewrite (handle_subprocess_run w _ p) by exact Ep.
      assert (Hlt : num_waits o < max_waits o).
      { unfold guard in Hg. apply andb_true_iff in Hg.
        apply Z.ltb_lt. tauto. }
      destruct (returncode (poll w p)) as [rc | ]; cbn [res obj trace].
      * destruct (IH (set_exit_code (Some rc)
                        (set_running (Some false)
                           (set_sp (Some (poll w p))
                              (set_num_waits (num_waits o + 1) o)))))
          as (R1 & R2 & R2' & R3 & R4 & R5 & R6 & R7);
          [cbn; discriminate | cbn; discriminate | ].
        cbn [num_waits max_waits set_exit_code set_running set_sp
               set_num_waits] in R3, R4, R7.
        match goal with
        | |- context [EvSleep ?x :: ?ht ++ ?rt] =>
            destruct (counts_step x ht rt) as (C1 & C2 & C3);
              [reflexivity | reflexivity | reflexivity | ]
        end.
        rewrite C1, C2, R1, R3, R4, R5.
        repeat split; auto; try lia.
      * destruct (IH (set_sp (Some (poll w p))
                        (set_num_waits (num_waits o + 1) o)))
          as (R1 & R2 & R2' & R3 & R4 & R5 & R6 & R7);
          [cbn; discriminate | exact Hrun | ].
        cbn [num_waits max_waits set_sp set_num_waits] in R3, R4, R7.
        match goal with
        | |- context [EvSleep ?x :: ?ht ++ ?rt] =>
            destruct (counts_step x ht rt) as (C1 & C2 & C3);
              [reflexivity | reflexivity | reflexivity | ]
        end.
        rewrite C1, C2, R1, R3, R4, R5.
        repeat split; auto; try lia.
    + cbn [res obj trace]. unfold count. cbn.
      repeat split; auto; lia.
Qed.

End Counting.

Lemma starts_run (w : World) (o : Fftranscode) (v : str) :
  starts w o v ->
  transcode_start w o = mkOut (Ret tt) (started o v) (start_events o v).
Proof.
  intros (Ho & Hs & (g & Hg & Hd) & Hc).
  rewrite (transcode_start_run w o g v Ho Hs Hg Hd), Hc. reflexivity.
Qed.

Lemma starts_movie (status : nat -> option Z) :
  starts (world_of banner_6_0 status) movie_start (py "6.0").
Proof.
  split; [reflexivity | ]. split; [reflexivity | ].
  split; [ | reflexivity].
  exists (pyb "6.0"). split; vm_compute; reflexivity.
Qed.

(** [transcode] once its start has returned with a handle: the calls of the
    start, then those of the loop; the outcome is decided by the counter. *)
Lemma transcode_run (w : World) (o o1 : Fftranscode) (t1 : list event) :
  transcode_start w o = mkOut (Ret tt) o1 t1 ->
  sp o1 <> None -> running o1 <> None ->
  transcode w o
  = mkOut
      (if num_waits (obj (wait_loop w o1)) =? max_waits (obj (wait_loop w o1))
       then Raise (elapsed_time_exceeded (obj (wait_loop w o1)))
       else Ret (exit_code (obj (wait_loop w o1))))
      (obj (wait_loop w o1))
      (t1 ++ trace (wait_loop w o1)).
Proof.
  intros Hs Hsp Hrun. rewrite transcode_split.
  rewrite (bind_run_ret _ _ _ _ _ _ Hs).
  assert (Hl : wait_loop w o1
               = mkOut (Ret tt) (obj (wait_loop w o1))
                   (trace (wait_loop w o1))).
  { rewrite wait_loop_run.
    destruct (wait_turns_counts w
                (Z.to_nat (max_waits o1 - num_waits o1)) o1 Hsp Hrun)
      as (R & _).
    destruct (wait_turns w _ o1) as [r o' t]. cbn [res] in R. subst r.
    reflexivity. }
  rewrite (bind_run_ret _ _ _ _ _ _ Hl).
  unfold transcode_finish, bind, self, raise, ret, elapsed_time_exceeded.
  cbn [res obj trace].
  destruct (num_waits (obj (wait_loop w o1))
            =? max_waits (obj (wait_loop w o1)));
    cbn [res obj trace]; rewrite ?app_nil_r; reflexivity.
Qed.

Lemma started_has_handle (o : Fftranscode) (v : str) : sp (started o v) <> None.
Proof. discriminate. Qed.

Lemma started_running (o : Fftranscode) (v : str) :
  running (started o v) <> None.
Proof. discriminate. Qed.

Lemma no_process_call_not_in (t : list event) (ev : event) :
  no_process_call t -> is_process_call ev = true -> ~ In ev t.
Proof.
  unfold no_process_call. intros H He Hin.
  rewrite forallb_forall in H. specialize (H ev Hin).
  rewrite He in H. discriminate.
Qed.

Lemma wait_loop_no_process_call (w : World) (o : Fftranscode) :
  sp o <> None -> running o <> None ->
  no_process_call (trace (wait_loop w o)).
Proof.
  intros Hsp Hrun. rewrite wait_loop_run.
  apply (wait_turns_counts w _ o Hsp Hrun).
Qed.

(** X14: when [transcode] gets past its start, its calls begin with those of
    [start_events]: the version query, then the child, started with the argv
    the builder returned, its error stream merged into its output and the
    output sent where [subprocess_out] says; whatever follows starts, kills
    and reaps nothing. *)
Theorem transcode_starts_two_processes
    (w : World) (o : Fftranscode) (v : str) :
  starts w o v ->
  exists rest,
    trace (transcode w o) = start_events o v ++ rest
    /\ no_process_call rest.
Proof.
  intros H.
  rewrite (transcode_run w o _ _ (starts_run w o v H) (started_has_handle o v)
             (started_running o v)).
  cbn [trace]. eexists. split; [reflexivity | ].
  apply wait_loop_no_process_call;
    [apply started_has_handle | apply started_running].
Qed.

Lemma transcode_starts_two_processes_movie :
  exists rest,
    trace (transcode (world_of banner_6_0 (exits_at 3 0)) movie_start)
    = start_events movie_start (py "6.0") ++ rest
    /\ no_process_call rest.
Proof.
  apply (transcode_starts_two_processes
           (world_of banner_6_0 (exits_at 3 0)) movie_start (py "6.0")).
  apply starts_movie.
Defined.

(** X15: the loop over a handle, once [running] is set, always returns;
    [num_waits] grows by the number of sleeps, every sleep is followed by one
    poll, the counter does not pass [max_waits], and no process is started,
    killed or reaped. *)
Theorem wait_loop_counts (w : World) (o : Fftranscode) :
  sp o <> None -> running o <> None ->
  res (wait_loop w o) = Ret tt
  /\ num_waits (obj (wait_loop w o))
     = num_waits o + Z.of_nat (count is_sleep (trace (wait_loop w o)))
  /\ count is_poll (trace (wait_loop w o))
     = count is_sleep (trace (wait_loop w o))
  /\ (num_waits o <= max_waits o ->
      num_waits (obj (wait_loop w o)) <= max_waits o)
  /\ no_process_call (trace (wait_loop w o)).
Proof.
  intros Hsp Hrun. rewrite wait_loop_run.
  destruct (wait_turns_counts w (Z.to_nat (max_waits o - num_waits o)) o
              Hsp Hrun)
    as (R1 & R2 & R2' & R3 & R4 & R5 & R6 & R7).
  repeat split; assumption.
Qed.

Lemma wait_loop_counts_polling :
  res (wait_loop polling_world polling_object) = Ret tt
  /\ num_waits (obj (wait_loop polling_world polling_object))
     = num_waits polling_object
       + Z.of_nat (count is_sleep
                     (trace (wait_loop polling_world polling_object)))
  /\ count is_poll (trace (wait_loop polling_world polling_object))
     = count is_sleep (trace (wait_loop polling_world polling_object))
  /\ (num_waits polling_object <= max_waits polling_object ->
      num_waits (obj (wait_loop polling_world polling_object))
      <= max_waits polling_object)
  /\ no_process_call (trace (wait_loop polling_world polling_object)).
Proof.
  apply (wait_loop_counts polling_world polling_object); discriminate.
Defined.

(** X16: when the loop returns, the child is no longer marked running or the
    counter has reached [max_waits]. *)
Theorem wait_loop_postcondition (w : World) (o : Fftranscode) :
  res (wait_loop w o) = Ret tt ->
  running (obj (wait_loop w o)) <> Some true
  \/ max_waits (obj (wait_loop w o)) <= num_waits (obj (wait_loop w o)).
Proof.
  rewrite wait_loop_run. intros Hr.
  pose proof (wait_turns_guard_exhausted w
                (Z.to_nat (max_waits o - num_waits o)) o) as Hg.
  assert (Hb : max_waits o - num_waits o
               <= Z.of_nat (Z.to_nat (max_waits o - num_waits o))) by lia.
  specialize (Hg Hb Hr). unfold guard in Hg.
  apply andb_false_iff in Hg. destruct Hg as [Hg | Hg].
  - left. intros E. rewrite E in Hg. discriminate.
  - right. apply Z.ltb_ge. exact Hg.
Qed.

Lemma wait_loop_postcondition_polling :
  running (obj (wait_loop polling_world polling_object)) <> Some true
  \/ max_waits (obj (wait_loop polling_world polling_object))
     <= num_waits (obj (wait_loop polling_world polling_object)).
Proof.
  apply (wait_loop_postcondition polling_world polling_object).
  rewrite wait_loop_run.
  apply (wait_turns_counts polling_world _ polling_object); discriminate.
Defined.

(** X17: without a handle [handle_subprocess] logs the error, cancels and
    ends the process with status 2; it polls nothing and leaves the object as
    it was. *)
Theorem handle_subprocess_without_child (w : World) (o : Fftranscode) :
  sp o = None ->
  handle_subprocess w o
  = mkOut (Raise (SystemExit (Some 2))) o
      [EvLog ERROR "There is no subprocess when there should be! Exiting." [];
       EvLog WARNING "Cancelling transcode." []].
Proof.
  intros Hsp.
  assert (Hc : bind (log ERROR
                       "There is no subprocess when there should be! Exiting."
                       [])
                 (fun _ => cancel_transcode w true) o
               = mkOut (Raise (SystemExit (Some 2))) o
                   [EvLog ERROR
                      "There is no subprocess when there should be! Exiting."
                      [];
                    EvLog WARNING "Cancelling transcode." []]).
  { unfold bind at 1. unfold log, emit. cbn [res obj trace].
    rewrite cancel_transcode_run, Hsp. reflexivity. }
  unfold handle_subprocess. unfold bind at 1. unfold self at 1.
  cbn [res obj trace]. rewrite Hsp.
  rewrite (bind_run_raise _ _ _ _ _ _ Hc). reflexivity.
Qed.

Lemma handle_subprocess_without_child_movie :
  handle_subprocess silent_world movie_start
  = mkOut (Raise (SystemExit (Some 2))) movie_start
      [EvLog ERROR "There is no subprocess when there should be! Exiting." [];
       EvLog WARNING "Cancelling transcode." []].
Proof.
  apply (handle_subprocess_without_child silent_world movie_start).
  reflexivity.
Defined.

Lemma starts_start_ret (w : World) (o : Fftranscode) (v : str) :
  starts w o v -> res (transcode_start w o) = Ret tt.
Proof. intros H. rewrite (starts_run w o v H). reflexivity. Qed.

(** X18: a child first seen gone by poll [k + 1], with at least one more poll
    allowed by the counter, makes [transcode] return its status, captured in
    [exit_code], with [running] false. *)
Theorem transcode_returns_exit_code
    (w : World) (o : Fftranscode) (v : str) (k : nat) (rc : Z) :
  starts w o v ->
  (forall j, (0 < j <= k)%nat -> child_status w j = None) ->
  child_status w (S k) = Some rc ->
  num_waits o + Z.of_nat k + 1 < max_waits o ->
  res (transcode w o) = Ret (Some rc)
  /\ exit_code (obj (transcode w o)) = Some rc
  /\ running (obj (transcode w o)) = Some false.
Proof.
  intros Hs Hnone Hsome Hlt.
  destruct (transcode_child_exits w o k rc (starts_start_ret w o v Hs)
              Hnone Hsome) as (R1 & R2 & R3); [lia | ].
  split; [ | split; assumption].
  rewrite R1.
  destruct (Z.eqb_spec (num_waits o + Z.of_nat k + 1) (max_waits o));
    [lia | reflexivity].
Qed.

Lemma transcode_returns_exit_code_movie :
  res (transcode (world_of banner_6_0 (exits_at 3 137)) movie_start)
  = Ret (Some 137)
  /\ exit_code (obj (transcode (world_of banner_6_0 (exits_at 3 137))
                       movie_start)) = Some 137
  /\ running (obj (transcode (world_of banner_6_0 (exits_at 3 137))
                     movie_start)) = Some false.
Proof.
  apply (transcode_returns_exit_code (world_of banner_6_0 (exits_at 3 137))
           movie_start (py "6.0") 2 137).
  - apply starts_movie.
  - intros j Hj. cbn [child_status world_of]. unfold exits_at.
    destruct (Z.leb_spec 3 (Z.of_nat j)); [lia | reflexivity].
  - reflexivity.
  - change (num_waits movie_start) with 0.
    change (max_waits movie_start) with 604800. lia.
Defined.

Lemma transcode_outlives_state (w : World) (o : Fftranscode) (v : str) :
  starts w o v ->
  num_waits o <= max_waits o ->
  (forall j, (0 < j <= Z.to_nat (max_waits o - num_waits o))%nat ->
             child_status w j = None) ->
  res (transcode w o) = Raise (elapsed_time_exceeded o)
  /\ running (obj (transcode w o)) = Some true
  /\ num_waits (obj (transcode w o)) = max_waits o
  /\ sp (obj (transcode w o)) <> None.
Proof.
  intros Hs Hle Hnone.
  destruct (transcode_child_outlives w o (starts_start_ret w o v Hs) Hle Hnone)
    as (R1 & R2).
  split; [exact R1 | ]. split; [exact R2 | ].
  rewrite (transcode_run w o _ _ (starts_run w o v Hs)
             (started_has_handle o v) (started_running o v)) in R1 |- *.
  cbn [res obj] in R1 |- *.
  destruct (wait_turns_counts w
              (Z.to_nat (max_waits (started o v) - num_waits (started o v)))
              (started o v) (started_has_handle o v) (started_running o v))
    as (_ & C2 & _).
  rewrite wait_loop_run. split; [ | exact C2].
  rewrite wait_loop_run in R1.
  destruct (Z.eqb_spec
              (num_waits (obj (wait_turns w
                 (Z.to_nat (max_waits (started o v) - num_waits (started o v)))
                 (started o v))))
              (max_waits (obj (wait_turns w
                 (Z.to_nat (max_waits (started o v) - num_waits (started o v)))
                 (started o v))))) as [E | E]; [ | discriminate].
  rewrite E.
  destruct (wait_turns_counts w
              (Z.to_nat (max_waits (started o v) - num_waits (started o v)))
              (started o v) (started_has_handle o v) (started_running o v))
    as (_ & _ & _ & C3 & _).
  rewrite C3. reflexivity.
Qed.

(** X19: a child that every poll the counter allows finds running makes
    [transcode] raise the elapsed-time failure, with the counter at
    [max_waits], the child still marked running and its handle kept. *)
Theorem transcode_times_out (w : World) (o : Fftranscode) (v : str) :
  starts w o v ->
  num_waits o <= max_waits o ->
  (forall j, (0 < j <= Z.to_nat (max_waits o - num_waits o))%nat ->
             child_status w j = None) ->
  res (transcode w o)
  = Raise (Exception "Transcode took longer tham max %s seconds."
             [VInt (max_waits o * wait_interval o)])
  /\ running (obj (transcode w o)) = Some true
  /\ num_waits (obj (transcode w o)) = max_waits o
  /\ sp (obj (transcode w o)) <> None.
Proof.
  intros Hs Hle Hnone.
  destruct (transcode_outlives_state w o v Hs Hle Hnone)
    as (R1 & R2 & R3 & R4).
  split; [exact R1 | ]. split; [exact R2 | ]. split; [exact R3 | exact R4].
Qed.

Lemma transcode_times_out_movie :
  res (transcode (world_of banner_6_0 (fun _ => None)) movie_start)
  = Raise (Exception "Transcode took longer tham max %s seconds."
             [VInt (max_waits movie_start * wait_interval movie_start)])
  /\ running (obj (transcode (world_of banner_6_0 (fun _ => None))
                     movie_start)) = Some true
  /\ num_waits (obj (transcode (world_of banner_6_0 (fun _ => None))
                       movie_start)) = max_waits movie_start
  /\ sp (obj (transcode (world_of banner_6_0 (fun _ => None)) movie_start))
     <> None.
Proof.
  apply (transcode_times_out (world_of banner_6_0 (fun _ => None))
           movie_start (py "6.0")).
  - apply starts_movie.
  - change (num_waits movie_start) with 0.
    change (max_waits movie_start) with 604800. lia.
  - reflexivity.
Defined.

Lemma main_run (w : World) (options : Options) :
  opt_input_file options <> [] ->
  main w options
  = (let r := transcode w (object_of options) in
     let t := verbose_logging (opt_verbose options)
              ++ [EvLog DEBUG "Initialised logger." []]
              ++ [EvSignal; EvPrintObj (object_of options)] ++ trace r in
     match res r with
     | Ret c => (t, SystemExit c)
     | Raise e =>
         if is_Exception e
         then (t ++ [EvPrintExn e;
                     EvLog ERROR "Exception: %s" [VType (type_name e)]]
                 ++ trace (cancel_transcode w false (obj r)), e)
         else (t, e)
     end).
Proof.
  intros Hin. unfold main, object_of, init.
  destruct (opt_input_file options) as [|c s] eqn:Ei; [congruence | ].
  cbn [List.length Nat.ltb Nat.leb fst]. cbv zeta.
  destruct (res (transcode w _)) as [c0 | e]; [reflexivity | ].
  destruct (is_Exception e); [ | reflexivity].
  rewrite cancel_transcode_run. cbn [res trace].
  rewrite <- !app_assoc. reflexivity.
Qed.

Lemma start_events_no_kill (o : Fftranscode) (v : str) :
  ~ In EvKill (start_events o v) /\ ~ In EvWait (start_events o v).
Proof.
  unfold start_events, output_events.
  split; intros H; rewrite !in_app_iff in H;
    destruct (str_eqb (subprocess_out o) (py "-")),
      (str_eqb (output_file o) (py "")); cbn [In] in H;
    intuition discriminate.
Qed.

(** X20: when the child is first seen gone before poll 604800, [main] ends
    with the status of the child as exit status and never calls kill or
    wait. *)
Theorem main_exits_with_child_status
    (w : World) (options : Options) (v : str) (k : nat) (rc : Z) :
  opt_input_file options <> [] ->
  starts w (object_of options) v ->
  (forall j, (0 < j <= k)%nat -> child_status w j = None) ->
  child_status w (S k) = Some rc ->
  Z.of_nat k + 1 < 604800 ->
  snd (main w options) = SystemExit (Some rc)
  /\ ~ In EvKill (fst (main w options))
  /\ ~ In EvWait (fst (main w options)).
Proof.
  intros Hin Hs Hnone Hsome Hk.
  destruct (transcode_child_exits w (object_of options) k rc
              (starts_start_ret w _ v Hs) Hnone Hsome) as (R1 & _).
  { change (num_waits (object_of options)) with 0.
    change (max_waits (object_of options)) with 604800. lia. }
  change (num_waits (object_of options)) with 0 in R1.
  change (max_waits (object_of options)) with 604800 in R1.
  destruct (Z.eqb_spec (0 + Z.of_nat k + 1) 604800) as [E | _];
    [lia | ].
  rewrite (main_run w options Hin). cbv zeta. rewrite R1. cbn [fst snd].
  split; [reflexivity | ].
  rewrite (transcode_run w _ _ _ (starts_run w _ v Hs)
             (started_has_handle _ v) (started_running _ v)).
  cbn [trace].
  pose proof (wait_loop_no_process_call w (started (object_of options) v)
                (started_has_handle _ v) (started_running _ v)) as Hn.
  destruct (start_events_no_kill (object_of options) v) as [Hk1 Hk2].
  unfold verbose_logging.
  split; intros H; rewrite !in_app_iff in H; cbn [In] in H;
    destruct H as [[H | []] | [[H | []] | [[H | [H | []]] | [H | H]]]];
    try discriminate; try tauto;
    revert H; apply no_process_call_not_in; auto.
Qed.

Lemma main_exits_with_child_status_movie :
  snd (main (world_of banner_6_0 (exits_at 3 137)) movie_options)
  = SystemExit (Some 137)
  /\ ~ In EvKill (fst (main (world_of banner_6_0 (exits_at 3 137))
                         movie_options))
  /\ ~ In EvWait (fst (main (world_of banner_6_0 (exits_at 3 137))
                         movie_options)).
Proof.
  apply (main_exits_with_child_status (world_of banner_6_0 (exits_at 3 137))
           movie_options (py "6.0") 2 137).
  - discriminate.
  - apply (starts_movie (exits_at 3 137)).
  - intros j Hj. cbn [child_status world_of]. unfold exits_at.
    destruct (Z.leb_spec 3 (Z.of_nat j)); [lia | reflexivity].
  - reflexivity.
  - lia.
Defined.

(** X21: when no poll up to 604800 finds the child gone, [main] ends with the
    elapsed-time failure, and the last calls it makes are the kill and the
    wait on the child. *)
Theorem main_timeout_kills_child
    (w : World) (options : Options) (v : str) :
  opt_input_file options <> [] ->
  starts w (object_of options) v ->
  (forall j, (0 < j <= Z.to_nat 604800)%nat -> child_status w j = None) ->
  snd (main w options)
  = Exception "Transcode took longer tham max %s seconds." [VInt 604800]
  /\ exists pre,
       fst (main w options)
       = pre
         ++ [EvPrintExn
               (Exception "Transcode took longer tham max %s seconds."
                  [VInt 604800]);
             EvLog ERROR "Exception: %s" [VType "Exception"];
             EvLog WARNING "Cancelling transcode." [];
             EvLog WARNING "Subprocess still executing, sending Kill signal."
               [];
             EvKill; EvWait].
Proof.
  intros Hin Hs Hnone.
  destruct (transcode_outlives_state w (object_of options) v Hs)
    as (R1 & _ & _ & R4).
  { change (num_waits (object_of options)) with 0.
    change (max_waits (object_of options)) with 604800. lia. }
  { exact Hnone. }
  rewrite (main_run w options Hin). cbv zeta. rewrite R1.
  cbn [is_Exception elapsed_time_exceeded fst snd type_name].
  change (max_waits (object_of options) * wait_interval (object_of options))
    with 604800.
  split; [reflexivity | ].
  rewrite cancel_transcode_run. cbn [trace].
  destruct (sp (obj (transcode w (object_of options)))) as [p | ];
    [ | congruence].
  exists (verbose_logging (opt_verbose options)
          ++ [EvLog DEBUG "Initialised logger." []]
          ++ [EvSignal; EvPrintObj (object_of options)]
          ++ trace (transcode w (object_of options))).
  rewrite <- !app_assoc. reflexivity.
Qed.

Lemma main_timeout_kills_child_movie :
  snd (main (world_of banner_6_0 (fun _ => None)) movie_options)
  = Exception "Transcode took longer tham max %s seconds." [VInt 604800]
  /\ exists pre,
       fst (main (world_of banner_6_0 (fun _ => None)) movie_options)
       = pre
         ++ [EvPrintExn
               (Exception "Transcode took longer tham max %s seconds."
                  [VInt 604800]);
             EvLog ERROR "Exception: %s" [VType "Exception"];
             EvLog WARNING "Cancelling transcode." [];
             EvLog WARNING "Subprocess still executing, sending Kill signal."
               [];
             EvKill; EvWait].
Proof.
  apply (main_timeout_kills_child (world_of banner_6_0 (fun _ => None))
           movie_options (py "6.0")).
  - discriminate.
  - apply (starts_movie (fun _ => None)).
  - reflexivity.
Defined.

Lemma transcode_open_fails (w : World) (o : Fftranscode) :
  str_eqb (subprocess_out o) (py "-") = false ->
  open_ok w (subprocess_out o) = false ->
  transcode w o
  = mkOut (Raise (OSError (open_error w (subprocess_out o)))) o
      [EvOpen (subprocess_out o)].
Proof.
  intros Hd Ho. rewrite transcode_split.
  apply bind_run_raise. unfold transcode_start.
  unfold bind at 1. unfold self at 1. cbn [res obj trace].
  rewrite Hd. cbn [negb].
  assert (HX : bind (emit (EvOpen (subprocess_out o)))
                 (fun _ =>
                    bind (if open_ok w (subprocess_out o)
                          then ret tt
                          else raise
                                 (OSError (open_error w (subprocess_out o))))
                      (fun _ =>
                         bind (log INFO
                                 ("Opened file " ++ dquote ++ "%s" ++ dquote
                                  ++ " for subprocess output.")%string
                                 [VStr (subprocess_out o)])
                           (fun _ => ret (ToFile (subprocess_out o))))) o
               = mkOut (Raise (OSError (open_error w (subprocess_out o)))) o
                   [EvOpen (subprocess_out o)]).
  { rewrite Ho. reflexivity. }
  rewrite (bind_run_raise _ _ _ _ _ _ HX). reflexivity.
Qed.

(** X22: when the file for the output of the child cannot be opened, [main]
    ends with the failure [open] raised, whose class is the one logged; it
    has started no process, and it kills and reaps none. *)
Theorem open_failure_starts_nothing (w : World) (options : Options) :
  opt_input_file options <> [] ->
  opt_subprocess_out_file options <> py "-" ->
  open_ok w (opt_subprocess_out_file options) = false ->
  main w options
  = (verbose_logging (opt_verbose options)
     ++ [EvLog DEBUG "Initialised logger." [];
         EvSignal; EvPrintObj (object_of options);
         EvOpen (opt_subprocess_out_file options);
         EvPrintExn (OSError (open_error w (opt_subprocess_out_file options)));
         EvLog ERROR "Exception: %s"
           [VType (open_error w (opt_subprocess_out_file options))];
         EvLog WARNING "Cancelling transcode." []],
     OSError (open_error w (opt_subprocess_out_file options))).
Proof.
  intros Hin Hd Ho. rewrite (main_run w options Hin). cbv zeta.
  apply str_eqb_neq in Hd.
  rewrite (transcode_open_fails w (object_of options) Hd Ho).
  cbn [res obj trace is_Exception type_name].
  rewrite cancel_transcode_run. cbn [trace sp object_of init fst].
  reflexivity.
Qed.

Lemma open_failure_starts_nothing_logged :
  main read_only_world logged_options
  = (verbose_logging (opt_verbose logged_options)
     ++ [EvLog DEBUG "Initialised logger." [];
         EvSignal; EvPrintObj (object_of logged_options);
         EvOpen (opt_subprocess_out_file logged_options);
         EvPrintExn
           (OSError (open_error read_only_world
                       (opt_subprocess_out_file logged_options)));
         EvLog ERROR "Exception: %s"
           [VType (open_error read_only_world
                     (opt_subprocess_out_file logged_options))];
         EvLog WARNING "Cancelling transcode." []],
     OSError (open_error read_only_world
                (opt_subprocess_out_file logged_options))).
Proof.
  apply (open_failure_starts_nothing read_only_world logged_options).
  - discriminate.
  - vm_compute. discriminate.
  - reflexivity.
Defined.

(** X23: when the child cannot be started, [main] ends with the failure
    [Popen] raised, no handle is stored, and nothing is killed or reaped. *)
Theorem spawn_failure_leaves_no_child
    (w : World) (options : Options) (g : bytes) (v : str) :
  opt_input_file options <> [] ->
  (opt_subprocess_out_file options <> py "-" ->
   open_ok w (opt_subprocess_out_file options) = true) ->
  spawn_ok w [py "ffmpeg"; py "-version"] = true ->
  version_group (version_stdout w) = Some g ->
  decode_utf8 g = Some v ->
  spawn_ok w (argv_of (set_ffmpeg_ver (Some v) (object_of options))) = false ->
  snd (main w options)
  = OSError (spawn_error w
               (argv_of (set_ffmpeg_ver (Some v) (object_of options))))
  /\ sp (obj (transcode w (object_of options))) = None
  /\ ~ In EvKill (fst (main w options))
  /\ ~ In EvWait (fst (main w options)).
Proof.
  intros Hin Ho Hs Hg Hd Hc.
  assert (Ho' : str_eqb (subprocess_out (object_of options)) (py "-") = false
                -> open_ok w (subprocess_out (object_of options)) = true).
  { intros E. apply Ho. apply str_eqb_neq. exact E. }
  pose proof (transcode_start_run w (object_of options) g v Ho' Hs Hg Hd)
    as Hrun.
  rewrite Hc in Hrun.
  assert (Ht : transcode w (object_of options)
               = mkOut
                   (Raise (OSError
                             (spawn_error w
                                (argv_of (set_ffmpeg_ver (Some v)
                                            (object_of options))))))
                   (set_output_file
                      (resolved_output
                         (set_ffmpeg_ver (Some v) (object_of options)))
                      (set_ffmpeg_ver (Some v) (object_of options)))
                   (start_events (object_of options) v)).
  { rewrite transcode_split. apply bind_run_raise. exact Hrun. }
  rewrite (main_run w options Hin). cbv zeta. rewrite Ht.
  cbn [res obj trace is_Exception type_name fst snd].
  split; [reflexivity | ]. split; [reflexivity | ].
  rewrite cancel_transcode_run. cbn [trace sp set_output_file set_ffmpeg_ver
                                       object_of init fst].
  destruct (start_events_no_kill (object_of options) v) as [Hk1 Hk2].
  unfold verbose_logging.
  split; intros H; rewrite !in_app_iff in H; cbn [In] in H;
    intuition discriminate.
Qed.

Lemma spawn_failure_leaves_no_child_nice :
  snd (main no_nice_world movie_options)
  = OSError (spawn_error no_nice_world
               (argv_of (set_ffmpeg_ver (Some (py "6.0"))
                           (object_of movie_options))))
  /\ sp (obj (transcode no_nice_world (object_of movie_options))) = None
  /\ ~ In EvKill (fst (main no_nice_world movie_options))
  /\ ~ In EvWait (fst (main no_nice_world movie_options)).
Proof.
  apply (spawn_failure_leaves_no_child no_nice_world movie_options
           (pyb "6.0") (py "6.0")).
  - discriminate.
  - reflexivity.
  - reflexivity.
  - vm_compute. reflexivity.
  - vm_compute. reflexivity.
  - vm_compute. reflexivity.
Defined.

(** X24: tokens joined by single spaces in [extra] appear in argv as they are
    and in order, right after the codec and tune flags and right before
    [-nostdin] and the output path. *)
Theorem extra_tokens_reach_argv (o : Fftranscode) (toks : list str) :
  Forall token toks ->
  extra o = join_spaces toks ->
  exists pre,
    res (gen_transcode_args o)
    = Ret (pre ++ toks
           ++ (if interactive o then [] else [py "-nostdin"])
           ++ [resolved_output o])
    /\ pre = (if niced o then [py "nice"] else [])
             ++ base_args o ++ tune_args o.
Proof.
  intros Ht He. rewrite gen_transcode_args_run. cbn [res].
  unfold argv_front.
  assert (Hx : (if str_eqb (extra o) (py "") then [] else split (extra o))
               = toks).
  { rewrite He. unfold split. rewrite (split_join_from toks Ht).
    destruct toks as [|t toks']; [reflexivity | ].
    replace (str_eqb (join_spaces (t :: toks')) (py "")) with false;
      [reflexivity | ].
    symmetry. apply str_eqb_neq. inversion Ht as [|? ? [Hne _] _]; subst.
    destruct t; [congruence | ]. destruct toks'; discriminate. }
  rewrite Hx. eexists. split; [ | reflexivity].
  rewrite <- !app_assoc. reflexivity.
Qed.

Lemma extra_tokens_reach_argv_film :
  exists pre,
    res (gen_transcode_args film_object)
    = Ret (pre ++ [py "-x"; py "1"; py "-y"; py "2"]
           ++ (if interactive film_object then [] else [py "-nostdin"])
           ++ [resolved_output film_object])
    /\ pre = (if niced film_object then [py "nice"] else [])
             ++ base_args film_object ++ tune_args film_object.
Proof.
  apply (extra_tokens_reach_argv film_object
           [py "-x"; py "1"; py "-y"; py "2"]).
  - repeat constructor; discriminate.
  - reflexivity.
Defined.

Lemma gen_output_file_name_stem_movie :
  exists rest,
    res (gen_output_file_name movie_object)
    = Ret (py "movie" ++ py " - ffmpeg:" ++ rest)
    /\ exists body, rest = body ++ py ".mkv".
Proof.
  apply (gen_output_file_name_stem movie_object (py "movie") (py ".mp4"));
    reflexivity.
Defined.

Lemma gen_output_file_name_short_input_ab :
  exists rest,
    res (gen_output_file_name short_object) = Ret (py " - ffmpeg:" ++ rest).
Proof.
  apply (gen_output_file_name_short_input short_object).
  vm_compute. lia.
Defined.

Lemma gen_output_file_name_without_version_movie :
  exists rest,
    res (gen_output_file_name movie_start)
    = Ret (strip_last4 (input_file movie_start) ++ py " - ffmpeg:None_c:"
           ++ rest).
Proof.
  apply (gen_output_file_name_without_version movie_start). reflexivity.
Defined.

Lemma version_group_sound_6_0 :
  pyb "6.0" <> [] /\ ~ In newline (pyb "6.0")
  /\ exists rest,
       banner_6_0 = pyb "ffmpeg version " ++ pyb "6.0" ++ pyb " Copyright"
                    ++ rest.
Proof.
  apply (version_group_sound banner_6_0 (pyb "6.0")).
  vm_compute. reflexivity.
Defined.

Lemma version_group_complete_6_0 :
  exists g',
    version_group
      (pyb "ffmpeg version " ++ pyb "6.0" ++ pyb " Copyright"
       ++ pyb " (c) 2000-2023 the FFmpeg developers")
    = Some g'
    /\ (List.length (pyb "6.0") <= List.length g')%nat.
Proof.
  apply (version_group_complete (pyb "6.0")
           (pyb " (c) 2000-2023 the FFmpeg developers")).
  - discriminate.
  - vm_compute. intuition discriminate.
Defined.

Lemma decode_utf8_ascii_6_0 :
  decode_utf8 (pyb "6.0") = Some (map Byte.to_N (pyb "6.0")).
Proof.
  apply (decode_utf8_ascii (pyb "6.0")).
  repeat constructor.
Defined.

Lemma get_ffencode_version_outcomes_movie :
  get_ffencode_version silent_world movie_start
  = match version_group (version_stdout silent_world) with
    | Some g =>
        match decode_utf8 g with
        | Some v =>
            mkOut (Ret tt) (set_ffmpeg_ver (Some v) movie_start)
              [EvPopen [py "ffmpeg"; py "-version"] PIPE false;
               EvLog INFO "ffmpeg version: %s" [VStr v]]
        | None =>
            mkOut (Raise UnicodeDecodeError) movie_start
              [EvPopen [py "ffmpeg"; py "-version"] PIPE false]
        end
    | None =>
        mkOut (Raise (UnboundLocalError "ver")) movie_start
          [EvPopen [py "ffmpeg"; py "-version"] PIPE false]
    end.
Proof.
  apply (get_ffencode_version_outcomes silent_world movie_start).
  reflexivity.
Defined.

Lemma ascii_banner_detected_6_0 :
  exists v,
    res (get_ffencode_version (world_of banner_6_0 (fun _ => None))
           movie_start) = Ret tt
    /\ ffmpeg_ver (obj (get_ffencode_version
                          (world_of banner_6_0 (fun _ => None)) movie_start))
       = Some v
    /\ (List.length (pyb "6.0") <= List.length v)%nat.
Proof.
  apply (ascii_banner_detected (world_of banner_6_0 (fun _ => None))
           movie_start (pyb "6.0")
           (pyb " (c) 2000-2023 the FFmpeg developers")).
  - reflexivity.
  - reflexivity.
  - discriminate.
  - vm_compute. intuition discriminate.
  - repeat constructor.
Defined.
